(** * ITC Sustainability Q&A: the Streamlit script, embedded and verified

    [streamlit_app.py] is one top-level script that the Streamlit host runs
    from the first line to the last on every user interaction.  The script
    is embedded here as a program in a small monad that

    - reads the world outside the script (the secret store, the behaviour
      of the client constructors and of the question-answering chain, the
      text typed by the user),
    - threads the one piece of state that survives a re-run (the resource
      cached by [@st.cache_resource]),
    - records every call into Streamlit or into a client library, in
      program order, and
    - ends in one of three ways: the script ran to its last line, an
      exception left the script uncaught, or [st.stop()] was called.

    Python [str] values are modelled by [string], one [ascii] per
    character.  The decorative symbols of the static page texts are kept
    as their UTF-8 bytes; nothing measures or cuts those texts. *)

From Stdlib Require Import ZArith String Ascii.
From stdpp Require Import base strings list gmap.

Open Scope string_scope.
Open Scope list_scope.

(** ** Python values used by the script *)

(** Instances of [Exception].  The script distinguishes only [KeyError]
    from the rest ([except KeyError] against [except Exception]) and reads
    an exception only through [str(e)].  [FileNotFoundError] stands for
    itself and for its subclasses, such as the error Streamlit raises when
    it finds no secrets at all. *)
Inductive exn_class := KeyError | FileNotFoundError | OtherException.

Record exn := Exn { exn_cls : exn_class; exn_str : string }.

(** [isinstance(e, KeyError)] and [isinstance(e, Exception)] *)
Definition is_KeyError (e : exn) : bool :=
  match exn_cls e with KeyError => true | _ => false end.

Definition is_Exception (e : exn) : bool := true.

(** [str(e)] *)
Definition str (e : exn) : string := exn_str e.

(** Truth value of a [str] and of a [list]: empty is false. *)
Definition bool_of_str (s : string) : bool :=
  match s with EmptyString => false | String _ _ => true end.

Definition bool_of_list {A} (l : list A) : bool :=
  match l with [] => false | _ :: _ => true end.

(** [s[:stop]]: a negative [stop] counts from the end, and the bound is
    clipped to the length of [s]. *)
Definition slice_to (s : string) (stop : Z) : string :=
  let n := Z.of_nat (String.length s) in
  let hi := if (stop <? 0)%Z then Z.max (n + stop) 0 else Z.min stop n in
  substring 0 (Z.to_nat hi) s.

(** [repr(s)] of a [str].  The literal is put in single quotes, or in
    double quotes when [s] holds a single quote and no double quote.  The
    backslash and the quote in use are escaped with a backslash; tab, line
    feed and carriage return are written [\t], [\n], [\r]; any other
    character that is not printable is written [\x] and two hexadecimal
    digits; the rest is copied. *)
Definition squote : ascii := "'"%char.
Definition dquote : ascii := "034"%char.
Definition backslash : ascii := "\"%char.

Fixpoint contains (a : ascii) (s : string) : bool :=
  match s with
  | EmptyString => false
  | String b rest => Ascii.eqb a b || contains a rest
  end.

(** [str.isprintable] on one character, for the characters below 256. *)
Definition is_printable (a : ascii) : bool :=
  let n := nat_of_ascii a in
  (((32 <=? n) && (n <=? 126))
   || ((161 <=? n) && (n <=? 255) && negb (n =? 173)))%nat.

Definition hex_digit (n : nat) : ascii :=
  match n with
  | 0 => "0" | 1 => "1" | 2 => "2" | 3 => "3" | 4 => "4" | 5 => "5"
  | 6 => "6" | 7 => "7" | 8 => "8" | 9 => "9" | 10 => "a" | 11 => "b"
  | 12 => "c" | 13 => "d" | 14 => "e" | _ => "f"
  end%char.

Definition hex2 (a : ascii) : string :=
  let n := nat_of_ascii a in
  String (hex_digit (n / 16)) (String (hex_digit (n mod 16)) "").

Definition repr_char (q a : ascii) : string :=
  if Ascii.eqb a backslash || Ascii.eqb a q then String backslash (String a "")
  else if Ascii.eqb a "009" then "\t"
  else if Ascii.eqb a "010" then "\n"
  else if Ascii.eqb a "013" then "\r"
  else if is_printable a then String a ""
  else "\x" +:+ hex2 a.

Fixpoint escape (q : ascii) (s : string) : string :=
  match s with
  | EmptyString => ""
  | String a rest => repr_char q a +:+ escape q rest
  end.

Definition repr_str (s : string) : string :=
  let q := if contains squote s && negb (contains dquote s)
           then dquote else squote in
  String q (escape q s +:+ String q "").

(** Reading a string literal back, as Python's parser does for the
    literals [repr] writes: the value of the literal, or [None] when the
    text is no such literal. *)
Definition hex_value (a : ascii) : option nat :=
  let n := nat_of_ascii a in
  if ((48 <=? n) && (n <=? 57))%nat then Some (n - 48)%nat
  else if ((97 <=? n) && (n <=? 102))%nat then Some (n - 87)%nat
  else if ((65 <=? n) && (n <=? 70))%nat then Some (n - 55)%nat
  else None.

Fixpoint unescape (q : ascii) (s : string) : option string :=
  match s with
  | EmptyString => None
  | String a rest =>
      if Ascii.eqb a q then
        match rest with EmptyString => Some "" | String _ _ => None end
      else if Ascii.eqb a backslash then
        match rest with
        | EmptyString => None
        | String b rest' =>
            if Ascii.eqb b backslash || Ascii.eqb b squote || Ascii.eqb b dquote
            then String b <$> unescape q rest'
            else if Ascii.eqb b "t" then String "009" <$> unescape q rest'
            else if Ascii.eqb b "n" then String "010" <$> unescape q rest'
            else if Ascii.eqb b "r" then String "013" <$> unescape q rest'
            else if Ascii.eqb b "x" then
              match rest' with
              | String h (String l rest'') =>
                  match hex_value h, hex_value l with
                  | Some x, Some y =>
                      String (ascii_of_nat (16 * x + y)) <$> unescape q rest''
                  | _, _ => None
                  end
              | _ => None
              end
            else None
        end
      else String a <$> unescape q rest
  end.

Definition unrepr (s : string) : option string :=
  match s with
  | EmptyString => None
  | String q body =>
      if Ascii.eqb q squote || Ascii.eqb q dquote then unescape q body
      else None
  end.

(** A document's metadata is a [dict]; the script only formats it.  Keys
    are strings, and a value is kept as the text [repr] gives for it. *)
Definition Metadata := list (string * string).

Fixpoint join (sep : string) (l : list string) : string :=
  match l with
  | [] => ""
  | [x] => x
  | x :: rest => x +:+ sep +:+ join sep rest
  end.

Definition format_item (kv : string * string) : string :=
  repr_str kv.1 +:+ ": " +:+ kv.2.

Definition format_dict (d : Metadata) : string :=
  "{" +:+ join ", " (format_item <$> d) +:+ "}".

(** ** Client objects

    The handles keep the arguments they were built from. *)

Record Embeddings := {
  emb_model : string;
  emb_google_api_key : string
}.

Record VectorStore := {
  persist_directory : string;
  embedding_function : Embeddings
}.

Record Retriever := {
  vectorstore : VectorStore;
  search_type : string;
  search_kwargs : gmap string Z
}.

Record ChatModel := {
  llm_api_key : string;
  llm_model : string
}.

Record RetrievalQA := {
  qa_llm : ChatModel;
  chain_type : string;
  qa_retriever : Retriever;
  return_source_documents : bool
}.

Record Document := {
  metadata : Metadata;
  page_content : string
}.

(** The dictionary returned by the chain, with the two keys the script
    reads. *)
Record Response := {
  result : string;
  source_documents : list Document
}.

(** ** The secret store

    [st.secrets] reads the secrets of the host.  When the host has no
    secrets at all (no secrets file), every lookup raises an error of the
    class [FileNotFoundError], whose text [msg] lists the places searched;
    otherwise a lookup finds the entry, or raises [KeyError]. *)
Inductive SecretStore :=
  | NoSecretsFile (msg : string)
  | SecretsFile (entries : gmap string string).

(** The entry of a name, if the store has one. *)
Global Instance secret_store_lookup : Lookup string string SecretStore :=
  λ name store,
    match store with
    | NoSecretsFile _ => None
    | SecretsFile entries => entries !! name
    end.

(** ** The world outside the script

    One [World] fixes what the outside does during one run of the script.
    A constructor either raises ([Some e]) or builds the handle ([None]). *)
Record World := {
  secrets : SecretStore;
  GoogleGenerativeAIEmbeddings_raises : string → string → option exn;
  Chroma_raises : string → Embeddings → option exn;
  ChatGoogleGenerativeAI_raises : string → string → option exn;
  qa_call : RetrievalQA → string → exn + Response;
  user_query : string
}.

(** ** What a run does, as seen from outside *)
Inductive event :=
  | ev_set_page_config (page_title page_icon layout : string)
  | ev_title (body : string)
  | ev_markdown (body : string)
  | ev_header (body : string)
  | ev_subheader (body : string)
  | ev_write (body : string)
  | ev_error (body : string)
  | ev_text_input (label placeholder : string)
  | ev_spinner_enter (text : string)
  | ev_spinner_exit
  | ev_expander_enter (label : string)
  | ev_expander_exit
  | ev_sidebar_enter
  | ev_sidebar_exit
  | ev_stop
  | ev_new_embeddings (model google_api_key : string)
  | ev_new_chroma (persist_dir : string) (embedding : Embeddings)
  | ev_new_chat_model (api_key model : string)
  | ev_qa_call (chain : RetrievalQA) (query : string).

(** How a run, or a part of one, ends.  [Halted] is [st.stop()]: Streamlit
    implements it with a control exception that is not an [Exception], so
    no [except Exception] clause catches it. *)
Inductive outcome (A : Type) :=
  | Returned (a : A)
  | Raised (e : exn)
  | Halted.
Arguments Returned {A} a.
Arguments Raised {A} e.
Arguments Halted {A}.

Definition Cache := option VectorStore.

Record run (A : Type) := Run {
  trace : list event;
  cache_after : Cache;
  ending : outcome A
}.
Arguments Run {A} _ _ _.
Arguments trace {A} _.
Arguments cache_after {A} _.
Arguments ending {A} _.

(** ** The script monad *)
Definition M (A : Type) : Type := World → Cache → run A.

Definition ret {A} (a : A) : M A := λ _ c, Run [] c (Returned a).

Definition bind {A B} (m : M A) (k : A → M B) : M B := λ w c,
  let r := m w c in
  match ending r with
  | Returned a =>
      let r' := k a w (cache_after r) in
      Run (trace r ++ trace r') (cache_after r') (ending r')
  | Raised e => Run (trace r) (cache_after r) (Raised e)
  | Halted => Run (trace r) (cache_after r) Halted
  end.

Notation "x <- m ;; k" := (bind m (λ x, k))
  (at level 100, m at next level, right associativity,
   format "'[v' x  <-  m  ;;  '/' k ']'").
Notation "m >> k" := (bind m (λ _, k))
  (at level 100, right associativity,
   format "'[v' m  >>  '/' k ']'").

Definition emit (e : event) : M unit := λ _ c, Run [e] c (Returned tt).
Definition raise {A} (e : exn) : M A := λ _ c, Run [] c (Raised e).
Definition ask : M World := λ w c, Run [] c (Returned w).

(** [try: body / except <class> as e: handler e], the class given by the
    test [catches]. *)
Definition try_except {A} (body : M A) (catches : exn → bool)
    (handler : exn → M A) : M A := λ w c,
  let r := body w c in
  match ending r with
  | Raised e =>
      if catches e then
        let r' := handler e w (cache_after r) in
        Run (trace r ++ trace r') (cache_after r') (ending r')
      else r
  | _ => r
  end.

(** [with cm: body], for the context managers of Streamlit: the exit is
    run however the body ends, and the body's ending is kept. *)
Definition with_ {A} (enter exit : event) (body : M A) : M A := λ w c,
  let r := body w c in
  Run (enter :: trace r ++ [exit]) (cache_after r) (ending r).

(** [for x in xs: body x] *)
Fixpoint for_each {A} (xs : list A) (body : A → M unit) : M unit :=
  match xs with
  | [] => ret tt
  | x :: rest => body x >> for_each rest body
  end.

(** [@st.cache_resource] on a function without arguments: the first call
    that returns stores its value, later calls return the stored value
    without running the function. *)
Definition cache_resource (f : M VectorStore) : M VectorStore := λ w c,
  match c with
  | Some v => Run [] c (Returned v)
  | None =>
      let r := f w None in
      match ending r with
      | Returned v => Run (trace r) (Some v) (Returned v)
      | _ => r
      end
  end.

(** ** Calls into Streamlit and into the client libraries *)
Module st.
Definition set_page_config (page_title page_icon layout : string) : M unit :=
  emit (ev_set_page_config page_title page_icon layout).
Definition title (body : string) : M unit := emit (ev_title body).
Definition markdown (body : string) : M unit := emit (ev_markdown body).
Definition header (body : string) : M unit := emit (ev_header body).
Definition subheader (body : string) : M unit := emit (ev_subheader body).
Definition write (body : string) : M unit := emit (ev_write body).
Definition error (body : string) : M unit := emit (ev_error body).

(** [st.stop()] never returns. *)
Definition stop {A} : M A := λ _ c, Run [ev_stop] c Halted.

(** [st.secrets[name]]: without any secrets the lookup raises the
    not-found error of the store, and a missing name raises [KeyError]. *)
Definition secrets_getitem (name : string) : M string :=
  w <- ask ;;
  match secrets w with
  | NoSecretsFile msg => raise (Exn FileNotFoundError msg)
  | SecretsFile entries =>
      match entries !! name with
      | Some v => ret v
      | None => raise (Exn KeyError ("'" +:+ name +:+ "'"))
      end
  end.

(** [st.text_input(label, placeholder=...)] returns the text typed. *)
Definition text_input (label placeholder : string) : M string :=
  emit (ev_text_input label placeholder) >>
  w <- ask ;;
  ret (user_query w).

Definition spinner {A} (text : string) (body : M A) : M A :=
  with_ (ev_spinner_enter text) ev_spinner_exit body.
Definition expander {A} (label : string) (body : M A) : M A :=
  with_ (ev_expander_enter label) ev_expander_exit body.
Definition sidebar {A} (body : M A) : M A :=
  with_ ev_sidebar_enter ev_sidebar_exit body.
End st.

Definition GoogleGenerativeAIEmbeddings (model google_api_key : string)
    : M Embeddings :=
  emit (ev_new_embeddings model google_api_key) >>
  w <- ask ;;
  match GoogleGenerativeAIEmbeddings_raises w model google_api_key with
  | Some e => raise e
  | None => ret {| emb_model := model; emb_google_api_key := google_api_key |}
  end.

Definition Chroma (persist_dir : string) (embedding : Embeddings)
    : M VectorStore :=
  emit (ev_new_chroma persist_dir embedding) >>
  w <- ask ;;
  match Chroma_raises w persist_dir embedding with
  | Some e => raise e
  | None => ret {| persist_directory := persist_dir;
                   embedding_function := embedding |}
  end.

Definition ChatGoogleGenerativeAI (api_key model : string) : M ChatModel :=
  emit (ev_new_chat_model api_key model) >>
  w <- ask ;;
  match ChatGoogleGenerativeAI_raises w api_key model with
  | Some e => raise e
  | None => ret {| llm_api_key := api_key; llm_model := model |}
  end.

(** [vector_store.as_retriever(search_type=..., search_kwargs=...)] *)
Definition as_retriever (vs : VectorStore) (ty : string)
    (kwargs : gmap string Z) : Retriever :=
  {| vectorstore := vs; search_type := ty; search_kwargs := kwargs |}.

(** [RetrievalQA.from_chain_type(...)] *)
Definition from_chain_type (llm : ChatModel) (ty : string) (r : Retriever)
    (sources : bool) : RetrievalQA :=
  {| qa_llm := llm; chain_type := ty; qa_retriever := r;
     return_source_documents := sources |}.

(** [qa_chain({"query": query})] *)
Definition call_chain (qa_chain : RetrievalQA) (query : string) : M Response :=
  emit (ev_qa_call qa_chain query) >>
  w <- ask ;;
  match qa_call w qa_chain query with
  | inl e => raise e
  | inr r => ret r
  end.

(** ** The script, block by block *)

Definition page_header : M unit :=
  st.set_page_config "ITC Sustainability Q&A" "🌱" "wide" >>
  st.title "🌿 ITC Sustainability Q&A App" >>
  st.markdown "
Ask questions about ITC's sustainability efforts in 2024. 
This app uses a pre-loaded Chroma vector store and Google's Gemini model to provide accurate answers.
".

Definition load_API_KEY : M string :=
  try_except (st.secrets_getitem "GOOGLE_API_KEY") is_KeyError (λ _,
    st.error "Google API key not found in Streamlit secrets. Please add 'GOOGLE_API_KEY' in the Space's secrets settings." >>
    st.stop).

Definition load_embeddings (API_KEY : string) : M Embeddings :=
  try_except (GoogleGenerativeAIEmbeddings "models/embedding-001" API_KEY)
    is_Exception (λ e,
    st.error ("Failed to initialize embeddings: " +:+ str e) >>
    st.stop).

(** [load_vector_store] takes no argument in the script and reads the
    global [embeddings]; the cache is therefore not keyed on it. *)
Definition load_vector_store (embeddings : Embeddings) : M VectorStore :=
  cache_resource (
    try_except (Chroma "./chroma_db" embeddings) is_Exception (λ e,
      st.error ("Failed to load Chroma vector store: " +:+ str e) >>
      st.write "Ensure the 'chroma_db' directory contains all necessary files (chroma.sqlite3, data_level0.bin, etc.)." >>
      st.stop)).

Definition show_source (doc : Document) : M unit :=
  st.expander "Source Document" (
    st.write ("**Metadata**: " +:+ format_dict (metadata doc)) >>
    st.write ("**Content Preview**: " +:+ slice_to (page_content doc) 200
               +:+ "...")).

Definition process_query (qa_chain : RetrievalQA) (query : string) : M unit :=
  if bool_of_str query then
    st.spinner "Generating response..." (
      try_except (
        response <- call_chain qa_chain query ;;
        st.subheader "Answer" >>
        st.write (result response) >>
        st.subheader "Sources" >>
        if bool_of_list (source_documents response) then
          for_each (source_documents response) show_source
        else
          st.write "No source documents found.")
      is_Exception (λ e,
        st.error ("An error occurred while processing the query: " +:+ str e) >>
        st.write "Please try again or check the Chroma database and API key."))
  else ret tt.

Definition sidebar_and_footer : M unit :=
  st.sidebar (
    st.header "About" >>
    st.markdown "
    This app is built using:
    - **Streamlit** for the web interface
    - **LangChain** for retrieval-augmented generation
    - **Google Gemini** for language modeling
    - **Chroma** for vector storage
    
    The Chroma database is located in the `chroma_db` directory at the root of this Space.
    It includes files like `chroma.sqlite3`, `data_level0.bin`, and others required for vector storage.
    
    The Google API key is securely accessed via Streamlit secrets.
    " >>
    st.header "Instructions" >>
    st.markdown "
    1. Enter a question about ITC's sustainability efforts in 2024.
    2. Wait for the app to process and display the answer.
    3. Check the sources for document metadata and content previews.
    ") >>
  st.markdown "---" >>
  st.markdown "Built with ❤️ using Streamlit | Powered by xAI".

(** The whole of [streamlit_app.py], top to bottom. *)
Definition script : M unit :=
  page_header >>
  API_KEY <- load_API_KEY ;;
  embeddings <- load_embeddings API_KEY ;;
  vector_store <- load_vector_store embeddings ;;
  let retriever :=
    as_retriever vector_store "mmr" {[ "k" := 3%Z; "lambda_mult" := 1%Z ]} in
  llm <- ChatGoogleGenerativeAI API_KEY "gemini-2.0-flash-exp" ;;
  let qa_chain := from_chain_type llm "stuff" retriever true in
  query <- st.text_input
    "Enter your question about ITC's sustainability efforts in 2024:"
    "E.g., Summarize ITC's sustainability efforts in 2024" ;;
  process_query qa_chain query >>
  sidebar_and_footer.

(** A session is a sequence of runs of the script, one per interaction;
    only the resource cache is carried from one run to the next. *)
Fixpoint session (ws : list World) (c : Cache) : list (run unit) :=
  match ws with
  | [] => []
  | w :: rest => let r := script w c in r :: session rest (cache_after r)
  end.

(** ** Reading traces *)

(** The calls of the question-answering chain made in a trace, in order. *)
Definition qa_calls (t : list event) : list (RetrievalQA * string) :=
  omap (λ ev, match ev with
              | ev_qa_call chain q => Some (chain, q)
              | _ => None
              end) t.

(** Construction of a network client. *)
Definition is_client_construction (ev : event) : bool :=
  match ev with
  | ev_new_embeddings _ _ | ev_new_chroma _ _ | ev_new_chat_model _ _ => true
  | _ => false
  end.

Definition is_error (ev : event) : bool :=
  match ev with ev_error _ => true | _ => false end.

Definition is_stop (ev : event) : bool :=
  match ev with ev_stop => true | _ => false end.

Definition is_expander (ev : event) : bool :=
  match ev with ev_expander_enter _ | ev_expander_exit => true | _ => false end.

(** [str.isspace] on one character, for the characters below 256. *)
Definition is_space_char (a : ascii) : bool :=
  let n := nat_of_ascii a in
  (((9 <=? n) && (n <=? 13)) || ((28 <=? n) && (n <=? 32))
   || (n =? 133) || (n =? 160))%nat.

Fixpoint all_space (s : string) : bool :=
  match s with
  | EmptyString => true
  | String a rest => is_space_char a && all_space rest
  end.

Definition is_new_chroma (ev : event) : bool :=
  match ev with ev_new_chroma _ _ => true | _ => false end.

Definition is_text_input (ev : event) : bool :=
  match ev with ev_text_input _ _ => true | _ => false end.

Definition is_sidebar (ev : event) : bool :=
  match ev with ev_sidebar_enter | ev_sidebar_exit => true | _ => false end.

Definition is_subheader (ev : event) : bool :=
  match ev with ev_subheader _ => true | _ => false end.

Definition is_expander_enter (ev : event) : bool :=
  match ev with ev_expander_enter _ => true | _ => false end.

(** A client construction that uses the models and the directory the
    script names, and as key the current entry of the secret store. *)
Definition uses_stored_secret (w : World) (ev : event) : Prop :=
  match ev with
  | ev_new_embeddings model k =>
      model = "models/embedding-001" ∧ secrets w !! "GOOGLE_API_KEY" = Some k
  | ev_new_chroma dir emb =>
      dir = "./chroma_db" ∧ emb_model emb = "models/embedding-001" ∧
      secrets w !! "GOOGLE_API_KEY" = Some (emb_google_api_key emb)
  | ev_new_chat_model k model =>
      model = "gemini-2.0-flash-exp" ∧ secrets w !! "GOOGLE_API_KEY" = Some k
  | _ => True
  end.

(** The display blocks a trace opens and closes.  [blocks opened t] follows
    [t] from the blocks [opened] so far, innermost first, and gives the
    blocks left open at the end; a block closed out of turn gives [None]. *)
Inductive block := blk_spinner | blk_expander | blk_sidebar.

Definition close (b : block) (opened : list block) : option (list block) :=
  match opened, b with
  | blk_spinner :: rest, blk_spinner
  | blk_expander :: rest, blk_expander
  | blk_sidebar :: rest, blk_sidebar => Some rest
  | _, _ => None
  end.

Fixpoint blocks (opened : list block) (t : list event) : option (list block) :=
  match t with
  | [] => Some opened
  | ev :: rest =>
      match ev with
      | ev_spinner_enter _ => blocks (blk_spinner :: opened) rest
      | ev_expander_enter _ => blocks (blk_expander :: opened) rest
      | ev_sidebar_enter => blocks (blk_sidebar :: opened) rest
      | ev_spinner_exit =>
          match close blk_spinner opened with
          | Some o => blocks o rest
          | None => None
          end
      | ev_expander_exit =>
          match close blk_expander opened with
          | Some o => blocks o rest
          | None => None
          end
      | ev_sidebar_exit =>
          match close blk_sidebar opened with
          | Some o => blocks o rest
          | None => None
          end
      | _ => blocks opened rest
      end
  end.

(** ** The clients the script builds when nothing fails *)

Definition script_embeddings (key : string) : Embeddings :=
  {| emb_model := "models/embedding-001"; emb_google_api_key := key |}.

(** The vector store in use: the cached one if there is one. *)
Definition script_vector_store (key : string) (c : Cache) : VectorStore :=
  match c with
  | Some vs => vs
  | None => {| persist_directory := "./chroma_db";
               embedding_function := script_embeddings key |}
  end.

Definition script_chain (key : string) (c : Cache) : RetrievalQA :=
  from_chain_type
    {| llm_api_key := key; llm_model := "gemini-2.0-flash-exp" |}
    "stuff"
    (as_retriever (script_vector_store key c) "mmr"
       {[ "k" := 3%Z; "lambda_mult" := 1%Z ]})
    true.

(** The secret is there and no constructor the run calls raises.  The
    vector store is built only when the cache is empty. *)
Definition clients_ok (w : World) (c : Cache) (key : string) : Prop :=
  secrets w !! "GOOGLE_API_KEY" = Some key ∧
  GoogleGenerativeAIEmbeddings_raises w "models/embedding-001" key = None ∧
  (c = None → Chroma_raises w "./chroma_db" (script_embeddings key) = None) ∧
  ChatGoogleGenerativeAI_raises w key "gemini-2.0-flash-exp" = None.

(** The constructor calls of such a run. *)
Definition init_events (key : string) (c : Cache) : list event :=
  ev_new_embeddings "models/embedding-001" key
  :: match c with
     | Some _ => []
     | None => [ev_new_chroma "./chroma_db" (script_embeddings key)]
     end
  ++ [ev_new_chat_model key "gemini-2.0-flash-exp"].

Definition input_event : event :=
  ev_text_input
    "Enter your question about ITC's sustainability efforts in 2024:"
    "E.g., Summarize ITC's sustainability efforts in 2024".

(** The collapsible section of one source document. *)
Definition source_section (doc : Document) : list event :=
  [ ev_expander_enter "Source Document";
    ev_write ("**Metadata**: " +:+ format_dict (metadata doc));
    ev_write ("**Content Preview**: " +:+ slice_to (page_content doc) 200
               +:+ "...");
    ev_expander_exit ].

(** What the query block displays for a response, and for an exception. *)
Definition response_view (r : Response) : list event :=
  [ ev_subheader "Answer"; ev_write (result r); ev_subheader "Sources" ]
  ++ match source_documents r with
     | [] => [ev_write "No source documents found."]
     | docs => concat (source_section <$> docs)
     end.

Definition failure_view (e : exn) : list event :=
  [ ev_error ("An error occurred while processing the query: " +:+ str e);
    ev_write "Please try again or check the Chroma database and API key." ].

(** What the query block displays, by the query and by what the chain
    does with it. *)
Definition query_view (w : World) (chain : RetrievalQA) (q : string)
    : list event :=
  if bool_of_str q then
    [ev_spinner_enter "Generating response..."; ev_qa_call chain q]
    ++ match qa_call w chain q with
       | inr r => response_view r
       | inl e => failure_view e
       end
    ++ [ev_spinner_exit]
  else [].

(** ** Sample worlds *)

Definition no_failure : World := {|
  secrets := SecretsFile {[ "GOOGLE_API_KEY" := "secret" ]};
  GoogleGenerativeAIEmbeddings_raises := λ _ _, None;
  Chroma_raises := λ _ _, None;
  ChatGoogleGenerativeAI_raises := λ _ _, None;
  qa_call := λ _ q, inr {| result := "A";
                           source_documents :=
                             [ {| metadata := [("page", "1")];
                                  page_content := "doc1 text" |} ] |};
  user_query := "What did ITC do?"
|}.

Definition with_query (q : string) (w : World) : World := {|
  secrets := secrets w;
  GoogleGenerativeAIEmbeddings_raises := GoogleGenerativeAIEmbeddings_raises w;
  Chroma_raises := Chroma_raises w;
  ChatGoogleGenerativeAI_raises := ChatGoogleGenerativeAI_raises w;
  qa_call := qa_call w;
  user_query := q
|}.

Definition with_qa (f : string → exn + Response) (w : World) : World := {|
  secrets := secrets w;
  GoogleGenerativeAIEmbeddings_raises := GoogleGenerativeAIEmbeddings_raises w;
  Chroma_raises := Chroma_raises w;
  ChatGoogleGenerativeAI_raises := ChatGoogleGenerativeAI_raises w;
  qa_call := λ _, f;
  user_query := user_query w
|}.

(** The chat-model constructor raises; everything else works. *)
Definition chat_model_down : World := {|
  secrets := SecretsFile {[ "GOOGLE_API_KEY" := "secret" ]};
  GoogleGenerativeAIEmbeddings_raises := λ _ _, None;
  Chroma_raises := λ _ _, None;
  ChatGoogleGenerativeAI_raises := λ _ _, Some (Exn OtherException "invalid API key");
  qa_call := λ _ _, inl (Exn OtherException "unreachable");
  user_query := "What did ITC do?"
|}.

(** The secret store has no entry at all. *)
Definition no_secret : World := {|
  secrets := SecretsFile ∅;
  GoogleGenerativeAIEmbeddings_raises := GoogleGenerativeAIEmbeddings_raises no_failure;
  Chroma_raises := Chroma_raises no_failure;
  ChatGoogleGenerativeAI_raises := ChatGoogleGenerativeAI_raises no_failure;
  qa_call := qa_call no_failure;
  user_query := user_query no_failure
|}.

(** The chain raises on every query. *)
Definition chain_down : World :=
  with_qa (λ _, inl (Exn OtherException "quota exceeded")) no_failure.

(** The chain answers without any source document. *)
Definition no_sources : World :=
  with_qa (λ _, inr {| result := "A"; source_documents := [] |}) no_failure.

(** A world like [w] whose secret store holds [key]. *)
Definition with_secret (key : string) (w : World) : World := {|
  secrets := SecretsFile {[ "GOOGLE_API_KEY" := key ]};
  GoogleGenerativeAIEmbeddings_raises := GoogleGenerativeAIEmbeddings_raises w;
  Chroma_raises := Chroma_raises w;
  ChatGoogleGenerativeAI_raises := ChatGoogleGenerativeAI_raises w;
  qa_call := qa_call w;
  user_query := user_query w
|}.

(** The host has no secrets file. *)
Definition no_secrets_file : World := {|
  secrets := NoSecretsFile "No secrets found.";
  GoogleGenerativeAIEmbeddings_raises := GoogleGenerativeAIEmbeddings_raises no_failure;
  Chroma_raises := Chroma_raises no_failure;
  ChatGoogleGenerativeAI_raises := ChatGoogleGenerativeAI_raises no_failure;
  qa_call := qa_call no_failure;
  user_query := user_query no_failure
|}.

(** A document whose metadata has a key with an apostrophe, and whose
    content is longer than the preview. *)
Definition long_document : Document := {|
  metadata := [("page", "7"); ("author's note", "'none'")];
  page_content :=
    "0123456789012345678901234567890123456789012345678901234567890123456789012345678901234567890123456789012345678901234567890123456789012345678901234567890123456789012345678901234567890123456789012345678901234567890123456789"
|}.

(** The chain answers with [long_document] as its only source. *)
Definition long_source : World :=
  with_qa (λ _, inr {| result := "A"; source_documents := [long_document] |})
          no_failure.

(** The embeddings constructor raises. *)
Definition embeddings_down : World := {|
  secrets := secrets no_failure;
  GoogleGenerativeAIEmbeddings_raises := λ _ _, Some (Exn OtherException "no network");
  Chroma_raises := Chroma_raises no_failure;
  ChatGoogleGenerativeAI_raises := ChatGoogleGenerativeAI_raises no_failure;
  qa_call := qa_call no_failure;
  user_query := user_query no_failure
|}.

(** The vector-store constructor raises. *)
Definition chroma_down : World := {|
  secrets := secrets no_failure;
  GoogleGenerativeAIEmbeddings_raises := GoogleGenerativeAIEmbeddings_raises no_failure;
  Chroma_raises := λ _ _, Some (Exn OtherException "no such table");
  ChatGoogleGenerativeAI_raises := ChatGoogleGenerativeAI_raises no_failure;
  qa_call := qa_call no_failure;
  user_query := user_query no_failure
|}.

(** ** The monad's equations *)

Lemma bind_Returned {A B} (m : M A) (k : A → M B) w c t c' a :
  m w c = Run t c' (Returned a) →
  bind m k w c =
    Run (t ++ trace (k a w c')) (cache_after (k a w c')) (ending (k a w c')).
Proof. intros H. unfold bind. by rewrite H. Qed.

Lemma bind_Raised {A B} (m : M A) (k : A → M B) w c t c' e :
  m w c = Run t c' (Raised e) → bind m k w c = Run t c' (Raised e).
Proof. intros H. unfold bind. by rewrite H. Qed.

Lemma bind_Halted {A B} (m : M A) (k : A → M B) w c t c' :
  m w c = Run t c' Halted → bind m k w c = Run t c' Halted.
Proof. intros H. unfold bind. by rewrite H. Qed.

Lemma run_eta {A} (r : run A) : Run (trace r) (cache_after r) (ending r) = r.
Proof. by destruct r. Qed.

Lemma for_each_trace {A} (xs : list A) (body : A → M unit) (f : A → list event) :
  (∀ x w c, body x w c = Run (f x) c (Returned tt)) →
  ∀ w c, for_each xs body w c = Run (concat (f <$> xs)) c (Returned tt).
Proof.
  intros Hbody w c. induction xs as [|x rest IH]; [done|].
  cbn [for_each]. erewrite bind_Returned by apply Hbody.
  rewrite IH. done.
Qed.

(** ** The blocks of the script, one by one *)

Lemma page_header_run w c :
  page_header w c = Run (trace (page_header w c)) c (Returned tt).
Proof. reflexivity. Qed.

Lemma page_header_trace_indep w c w' c' :
  trace (page_header w c) = trace (page_header w' c').
Proof. reflexivity. Qed.

Lemma sidebar_and_footer_run w c :
  sidebar_and_footer w c = Run (trace (sidebar_and_footer w c)) c (Returned tt).
Proof. reflexivity. Qed.

Lemma sidebar_and_footer_trace_indep w c w' c' :
  trace (sidebar_and_footer w c) = trace (sidebar_and_footer w' c').
Proof. reflexivity. Qed.

Lemma load_API_KEY_present w c key :
  secrets w !! "GOOGLE_API_KEY" = Some key →
  load_API_KEY w c = Run [] c (Returned key).
Proof.
  intros H. unfold load_API_KEY, try_except, st.secrets_getitem, bind, ask.
  cbn [ending trace cache_after].
  unfold lookup, secret_store_lookup in H.
  destruct (secrets w) as [msg|entries]; [discriminate|].
  rewrite H. reflexivity.
Qed.

Lemma load_API_KEY_absent w c entries :
  secrets w = SecretsFile entries →
  entries !! "GOOGLE_API_KEY" = None →
  load_API_KEY w c =
    Run [ ev_error "Google API key not found in Streamlit secrets. Please add 'GOOGLE_API_KEY' in the Space's secrets settings.";
          ev_stop ] c Halted.
Proof.
  intros Hstore H.
  unfold load_API_KEY, try_except, st.secrets_getitem, bind, ask.
  cbn [ending trace cache_after]. rewrite Hstore, H. reflexivity.
Qed.

Lemma load_API_KEY_no_file w c msg :
  secrets w = NoSecretsFile msg →
  load_API_KEY w c = Run [] c (Raised (Exn FileNotFoundError msg)).
Proof.
  intros Hstore.
  unfold load_API_KEY, try_except, st.secrets_getitem, bind, ask.
  cbn [ending trace cache_after]. rewrite Hstore. reflexivity.
Qed.

Lemma load_embeddings_ok w c key :
  GoogleGenerativeAIEmbeddings_raises w "models/embedding-001" key = None →
  load_embeddings key w c =
    Run [ev_new_embeddings "models/embedding-001" key] c
        (Returned (script_embeddings key)).
Proof.
  intros H.
  unfold load_embeddings, try_except, GoogleGenerativeAIEmbeddings, bind, ask, emit.
  cbn [ending trace cache_after]. rewrite H. reflexivity.
Qed.

Lemma load_embeddings_raises w c key e :
  GoogleGenerativeAIEmbeddings_raises w "models/embedding-001" key = Some e →
  load_embeddings key w c =
    Run [ ev_new_embeddings "models/embedding-001" key;
          ev_error ("Failed to initialize embeddings: " +:+ str e);
          ev_stop ] c Halted.
Proof.
  intros H.
  unfold load_embeddings, try_except, GoogleGenerativeAIEmbeddings, bind, ask, emit.
  cbn [ending trace cache_after]. rewrite H. reflexivity.
Qed.

Lemma load_vector_store_cached w vs emb :
  load_vector_store emb w (Some vs) = Run [] (Some vs) (Returned vs).
Proof. reflexivity. Qed.

Lemma load_vector_store_built w emb :
  Chroma_raises w "./chroma_db" emb = None →
  load_vector_store emb w None =
    let vs := {| persist_directory := "./chroma_db"; embedding_function := emb |} in
    Run [ev_new_chroma "./chroma_db" emb] (Some vs) (Returned vs).
Proof.
  intros H.
  unfold load_vector_store, cache_resource, try_except, Chroma, bind, ask, emit.
  cbn [ending trace cache_after]. rewrite H. reflexivity.
Qed.

Lemma load_vector_store_raises w emb e :
  Chroma_raises w "./chroma_db" emb = Some e →
  load_vector_store emb w None =
    Run [ ev_new_chroma "./chroma_db" emb;
          ev_error ("Failed to load Chroma vector store: " +:+ str e);
          ev_write "Ensure the 'chroma_db' directory contains all necessary files (chroma.sqlite3, data_level0.bin, etc.).";
          ev_stop ] None Halted.
Proof.
  intros H.
  unfold load_vector_store, cache_resource, try_except, Chroma, bind, ask, emit.
  cbn [ending trace cache_after]. rewrite H. reflexivity.
Qed.

Lemma ChatGoogleGenerativeAI_ok w c key model :
  ChatGoogleGenerativeAI_raises w key model = None →
  ChatGoogleGenerativeAI key model w c =
    Run [ev_new_chat_model key model] c
        (Returned {| llm_api_key := key; llm_model := model |}).
Proof.
  intros H. unfold ChatGoogleGenerativeAI, bind, ask, emit.
  cbn [ending trace cache_after]. rewrite H. reflexivity.
Qed.

Lemma ChatGoogleGenerativeAI_raises_run w c key model e :
  ChatGoogleGenerativeAI_raises w key model = Some e →
  ChatGoogleGenerativeAI key model w c =
    Run [ev_new_chat_model key model] c (Raised e).
Proof.
  intros H. unfold ChatGoogleGenerativeAI, bind, ask, emit.
  cbn [ending trace cache_after]. rewrite H. reflexivity.
Qed.

Lemma show_source_run doc w c :
  show_source doc w c = Run (source_section doc) c (Returned tt).
Proof. reflexivity. Qed.

Lemma call_chain_run chain q w c :
  call_chain chain q w c =
    Run [ev_qa_call chain q] c
        match qa_call w chain q with inl e => Raised e | inr r => Returned r end.
Proof.
  unfold call_chain, bind, ask, emit. cbn [ending trace cache_after].
  by destruct (qa_call w chain q).
Qed.

Lemma process_query_run chain q w c :
  process_query chain q w c = Run (query_view w chain q) c (Returned tt).
Proof.
  unfold process_query, query_view.
  destruct (bool_of_str q); [|reflexivity].
  unfold st.spinner, with_, try_except.
  destruct (qa_call w chain q) as [e|r] eqn:Hqa.
  - erewrite bind_Raised by (rewrite call_chain_run, Hqa; reflexivity).
    reflexivity.
  - erewrite bind_Returned by (rewrite call_chain_run, Hqa; reflexivity).
    unfold response_view.
    destruct (source_documents r) as [|doc docs] eqn:Hdocs; [reflexivity|].
    cbn [bool_of_list].
    pose proof (for_each_trace (doc :: docs) show_source source_section
                  show_source_run w c) as Hfor.
    unfold bind, st.subheader, st.write, emit.
    cbn [ending trace cache_after].
    rewrite Hfor. reflexivity.
Qed.

(** ** The script as a whole, path by path *)

Lemma text_input_run label placeholder w c :
  st.text_input label placeholder w c =
    Run [ev_text_input label placeholder] c (Returned (user_query w)).
Proof. reflexivity. Qed.

Ltac returns H := erewrite bind_Returned by (apply H; eassumption).

Lemma script_no_key w c entries :
  secrets w = SecretsFile entries →
  entries !! "GOOGLE_API_KEY" = None →
  script w c =
    Run (trace (page_header w c)
         ++ [ ev_error "Google API key not found in Streamlit secrets. Please add 'GOOGLE_API_KEY' in the Space's secrets settings.";
              ev_stop ])
        c Halted.
Proof.
  intros Hstore Hkey. unfold script.
  returns page_header_run.
  erewrite bind_Halted by (eapply load_API_KEY_absent; eassumption).
  reflexivity.
Qed.

Lemma script_no_secrets_file w c msg :
  secrets w = NoSecretsFile msg →
  script w c =
    Run (trace (page_header w c)) c (Raised (Exn FileNotFoundError msg)).
Proof.
  intros Hstore. unfold script.
  returns page_header_run.
  erewrite bind_Raised by (eapply load_API_KEY_no_file; eassumption).
  reflexivity.
Qed.

Lemma script_embeddings_raise w c key e :
  secrets w !! "GOOGLE_API_KEY" = Some key →
  GoogleGenerativeAIEmbeddings_raises w "models/embedding-001" key = Some e →
  script w c =
    Run (trace (page_header w c)
         ++ [ ev_new_embeddings "models/embedding-001" key;
              ev_error ("Failed to initialize embeddings: " +:+ str e);
              ev_stop ])
        c Halted.
Proof.
  intros Hkey Hemb. unfold script.
  returns page_header_run. returns load_API_KEY_present.
  erewrite bind_Halted by (apply load_embeddings_raises; eassumption).
  reflexivity.
Qed.

Lemma script_chroma_raise w key e :
  secrets w !! "GOOGLE_API_KEY" = Some key →
  GoogleGenerativeAIEmbeddings_raises w "models/embedding-001" key = None →
  Chroma_raises w "./chroma_db" (script_embeddings key) = Some e →
  script w None =
    Run (trace (page_header w None)
         ++ [ ev_new_embeddings "models/embedding-001" key;
              ev_new_chroma "./chroma_db" (script_embeddings key);
              ev_error ("Failed to load Chroma vector store: " +:+ str e);
              ev_write "Ensure the 'chroma_db' directory contains all necessary files (chroma.sqlite3, data_level0.bin, etc.).";
              ev_stop ])
        None Halted.
Proof.
  intros Hkey Hemb Hchroma. unfold script.
  returns page_header_run. returns load_API_KEY_present.
  returns load_embeddings_ok.
  erewrite bind_Halted by (apply load_vector_store_raises; eassumption).
  reflexivity.
Qed.

Lemma load_vector_store_ok w c key :
  (c = None → Chroma_raises w "./chroma_db" (script_embeddings key) = None) →
  load_vector_store (script_embeddings key) w c =
    Run match c with
        | Some _ => []
        | None => [ev_new_chroma "./chroma_db" (script_embeddings key)]
        end
        (Some (script_vector_store key c))
        (Returned (script_vector_store key c)).
Proof.
  intros H. destruct c as [vs|].
  - apply load_vector_store_cached.
  - apply load_vector_store_built. by apply H.
Qed.

Lemma script_chat_model_raise w c key e :
  secrets w !! "GOOGLE_API_KEY" = Some key →
  GoogleGenerativeAIEmbeddings_raises w "models/embedding-001" key = None →
  (c = None → Chroma_raises w "./chroma_db" (script_embeddings key) = None) →
  ChatGoogleGenerativeAI_raises w key "gemini-2.0-flash-exp" = Some e →
  script w c =
    Run (trace (page_header w c) ++ init_events key c)
        (Some (script_vector_store key c)) (Raised e).
Proof.
  intros Hkey Hemb Hchroma Hchat. unfold script.
  returns page_header_run. returns load_API_KEY_present.
  returns load_embeddings_ok. returns load_vector_store_ok.
  cbv zeta.
  erewrite bind_Raised
    by (apply ChatGoogleGenerativeAI_raises_run; eassumption).
  cbn [trace cache_after ending]. unfold init_events.
  by destruct c.
Qed.

Lemma script_ready w c key :
  clients_ok w c key →
  script w c =
    Run (trace (page_header w c) ++ init_events key c
         ++ input_event :: query_view w (script_chain key c) (user_query w)
         ++ trace (sidebar_and_footer w c))
        (Some (script_vector_store key c)) (Returned tt).
Proof.
  intros (Hkey & Hemb & Hchroma & Hchat). unfold script.
  returns page_header_run. returns load_API_KEY_present.
  returns load_embeddings_ok. returns load_vector_store_ok.
  cbv zeta.
  returns ChatGoogleGenerativeAI_ok.
  erewrite bind_Returned by apply text_input_run.
  erewrite bind_Returned by apply process_query_run.
  rewrite sidebar_and_footer_run.
  cbn [trace cache_after ending]. unfold init_events, script_chain.
  rewrite (sidebar_and_footer_trace_indep w _ w c).
  f_equal. destruct c; reflexivity.
Qed.

(** ** Facts about traces *)

Lemma Forall_not (f : event → bool) (t : list event) :
  forallb (λ ev, negb (f ev)) t = true → Forall (λ ev, f ev = false) t.
Proof.
  induction t as [|ev t IH]; cbn [forallb]; intros H; constructor.
  - destruct (f ev); [discriminate|done].
  - apply IH. destruct (f ev); [discriminate|done].
Qed.

Lemma bool_of_str_true (s : string) : bool_of_str s = true ↔ s ≠ "".
Proof. destruct s; cbn; split; intros; try done. Qed.

Lemma qa_calls_app t1 t2 : qa_calls (t1 ++ t2) = qa_calls t1 ++ qa_calls t2.
Proof. apply omap_app. Qed.

Lemma qa_calls_init_events key c : qa_calls (init_events key c) = [].
Proof. by destruct c. Qed.

Lemma qa_calls_sections docs : qa_calls (concat (source_section <$> docs)) = [].
Proof. induction docs as [|doc docs IH]; [done|]. cbn. exact IH. Qed.

Lemma qa_calls_response_view r : qa_calls (response_view r) = [].
Proof.
  unfold response_view. rewrite qa_calls_app.
  destruct (source_documents r) as [|doc docs]; [done|].
  apply (qa_calls_sections (doc :: docs)).
Qed.

Lemma qa_calls_query_view w chain q :
  qa_calls (query_view w chain q) =
    if bool_of_str q then [(chain, q)] else [].
Proof.
  unfold query_view. destruct (bool_of_str q); [|done].
  rewrite !qa_calls_app.
  destruct (qa_call w chain q) as [e|r].
  - reflexivity.
  - by rewrite qa_calls_response_view.
Qed.

Lemma qa_calls_ready w c key :
  clients_ok w c key →
  qa_calls (trace (script w c)) =
    if bool_of_str (user_query w)
    then [(script_chain key c, user_query w)] else [].
Proof.
  intros Hok. rewrite (script_ready w c key Hok). cbn [trace].
  rewrite !qa_calls_app, qa_calls_init_events.
  change (input_event :: ?t) with ([input_event] ++ t).
  rewrite !qa_calls_app, qa_calls_query_view.
  change (qa_calls (trace (page_header w c))) with (@nil (RetrievalQA * string)).
  change (qa_calls (trace (sidebar_and_footer w c)))
    with (@nil (RetrievalQA * string)).
  change (qa_calls [input_event]) with (@nil (RetrievalQA * string)).
  by rewrite app_nil_r.
Qed.

(** Every run either has all its clients, or never reaches the chain. *)
Lemma script_cases w c :
  (∃ key, clients_ok w c key) ∨ qa_calls (trace (script w c)) = [].
Proof.
  destruct (secrets w) as [msg|entries] eqn:Hstore;
    [right; by erewrite script_no_secrets_file|].
  destruct (entries !! "GOOGLE_API_KEY") as [key|] eqn:Hentry;
    [|right; by erewrite script_no_key].
  assert (Hkey : secrets w !! "GOOGLE_API_KEY" = Some key)
    by by rewrite Hstore.
  clear Hstore Hentry.
  destruct (GoogleGenerativeAIEmbeddings_raises w "models/embedding-001" key)
    as [e|] eqn:Hemb;
    [right; by erewrite script_embeddings_raise|].
  assert (Hchat_raise : ∀ e,
    (c = None → Chroma_raises w "./chroma_db" (script_embeddings key) = None) →
    ChatGoogleGenerativeAI_raises w key "gemini-2.0-flash-exp" = Some e →
    qa_calls (trace (script w c)) = []).
  { intros e Hchroma Hchat. erewrite script_chat_model_raise by eassumption.
    cbn [trace]. by rewrite qa_calls_app, qa_calls_init_events. }
  destruct (ChatGoogleGenerativeAI_raises w key "gemini-2.0-flash-exp")
    as [e|] eqn:Hchat.
  - right. destruct c as [vs|]; [by apply (Hchat_raise e)|].
    destruct (Chroma_raises w "./chroma_db" (script_embeddings key))
      as [e'|] eqn:Hchroma.
    + by erewrite script_chroma_raise.
    + by apply (Hchat_raise e).
  - destruct c as [vs|]; [left; by exists key|].
    destruct (Chroma_raises w "./chroma_db" (script_embeddings key))
      as [e'|] eqn:Hchroma.
    + right. by erewrite script_chroma_raise.
    + left. by exists key.
Qed.

(** ** Slices of strings *)

Lemma substring_min (s : string) (n : nat) :
  substring 0 (n `min` String.length s) s = substring 0 n s.
Proof.
  revert n. induction s as [|a s IH]; intros [|n]; cbn; try done.
  by rewrite IH.
Qed.

Lemma slice_to_nonneg (s : string) (stop : Z) :
  (0 ≤ stop)%Z → slice_to s stop = substring 0 (Z.to_nat stop) s.
Proof.
  intros Hstop. unfold slice_to.
  destruct (stop <? 0)%Z eqn:Hneg; [lia|].
  rewrite <- (substring_min s (Z.to_nat stop)). f_equal. lia.
Qed.

Lemma substring_length (s : string) (n : nat) :
  String.length (substring 0 n s) = n `min` String.length s.
Proof.
  revert n. induction s as [|a s IH]; intros [|n]; cbn; try done.
  by rewrite IH.
Qed.

Lemma substring_prefix (s : string) (n : nat) :
  ∃ rest, s = substring 0 n s +:+ rest.
Proof.
  revert n. induction s as [|a s IH]; intros [|n]; cbn.
  - by exists "".
  - by exists "".
  - by exists (String a s).
  - destruct (IH n) as [rest Hrest]. exists rest.
    change (String a s = String a (substring 0 n s +:+ rest)). by f_equal.
Qed.

Lemma substring_all (s : string) (n : nat) :
  (String.length s ≤ n)%nat → substring 0 n s = s.
Proof.
  revert n. induction s as [|a s IH]; intros [|n]; cbn; try done; try lia.
  intros H. rewrite IH; [done|lia].
Qed.

(** ** String literals and the text of a dictionary *)

Lemma string_app_assoc (s1 s2 s3 : string) :
  (s1 +:+ s2) +:+ s3 = s1 +:+ (s2 +:+ s3).
Proof.
  induction s1 as [|a s1 IH]; [done|].
  change (String a ((s1 +:+ s2) +:+ s3) = String a (s1 +:+ (s2 +:+ s3))).
  by rewrite IH.
Qed.

(** One escaped character is read back as the character it stands for. *)
Lemma unescape_repr_char (q a : ascii) (rest : string) :
  q = squote ∨ q = dquote →
  unescape q (repr_char q a +:+ rest) = String a <$> unescape q rest.
Proof.
  intros [->| ->];
    destruct a as [[] [] [] [] [] [] [] []]; reflexivity.
Qed.

Lemma unescape_escape (q : ascii) (s : string) :
  q = squote ∨ q = dquote →
  unescape q (escape q s +:+ String q "") = Some s.
Proof.
  intros Hq. induction s as [|a s IH].
  - destruct Hq as [->| ->]; reflexivity.
  - cbn [escape]. rewrite string_app_assoc, unescape_repr_char by done.
    by rewrite IH.
Qed.

(** What [repr] writes for a string is a literal of that string. *)
Lemma unrepr_repr_str (s : string) : unrepr (repr_str s) = Some s.
Proof.
  unfold repr_str.
  destruct (contains squote s && negb (contains dquote s)).
  - apply (unescape_escape dquote). by right.
  - apply (unescape_escape squote). by left.
Qed.

Lemma join_concat (sep : string) (l : list string) :
  join sep l = String.concat sep l.
Proof.
  induction l as [|x l IH]; [done|].
  destruct l as [|y l]; [done|].
  change (x +:+ sep +:+ join sep (y :: l)
          = x +:+ sep +:+ String.concat sep (y :: l)).
  by rewrite IH.
Qed.

(** The text of a dictionary: in braces, the items in their order with a
    comma and a blank between them, each item as the literal of its key, a
    colon, a blank and the text of its value. *)
Lemma format_dict_text (d : Metadata) :
  format_dict d =
    "{" +:+ String.concat ", " ((λ kv, repr_str kv.1 +:+ ": " +:+ kv.2) <$> d)
    +:+ "}".
Proof. unfold format_dict. by rewrite join_concat. Qed.

(** * The claims *)

Ltac by_computation := vm_compute; reflexivity.
Ltac clients_ok_by_computation :=
  unfold clients_ok; repeat split; try intros _; by_computation.

(** ** Initialisation *)

(** C1.  The claim asks that a raising constructor, the chat-model one
    included, leads to an error message and a halt.  The script guards the
    embeddings constructor and the vector-store constructor that way (see
    [script_embeddings_raise] and [script_chroma_raise]) but calls the
    chat-model constructor bare.  In the world [chat_model_down], started
    with an empty cache, the exception of the chat-model constructor leaves
    the script uncaught: the run ends [Raised], it shows no error message
    and it never calls [st.stop()]. *)
Theorem chat_model_failure_is_uncaught :
  ending (script chat_model_down None)
    = Raised (Exn OtherException "invalid API key") ∧
  Forall (λ ev, is_error ev = false) (trace (script chat_model_down None)) ∧
  Forall (λ ev, is_stop ev = false) (trace (script chat_model_down None)).
Proof.
  assert (Hrun : script chat_model_down None =
    Run (trace (page_header chat_model_down None) ++ init_events "secret" None)
        (Some (script_vector_store "secret" None))
        (Raised (Exn OtherException "invalid API key"))).
  { apply script_chat_model_raise; try intros _; by_computation. }
  rewrite Hrun. cbn [ending trace].
  split; [reflexivity|]. split; apply Forall_not; reflexivity.
Qed.

(** C2.  The claim asks that a run without the secret shows the
    configuration error and halts.  The script catches only [KeyError]
    around the lookup, which covers a secrets file without the entry (see
    [script_no_key]) but not a host without any
    secrets file: there the lookup raises an error of the class
    [FileNotFoundError], which [except KeyError] lets through.  In the
    world [no_secrets_file] the run ends with that exception uncaught
    right after the page header: it shows no error message and never calls
    [st.stop()].  No network client is constructed, as the claim says. *)
Theorem missing_secrets_file_is_uncaught :
  secrets no_secrets_file !! "GOOGLE_API_KEY" = None ∧
  ending (script no_secrets_file None)
    = Raised (Exn FileNotFoundError "No secrets found.") ∧
  trace (script no_secrets_file None)
    = trace (page_header no_secrets_file None) ∧
  Forall (λ ev, is_error ev = false) (trace (script no_secrets_file None)) ∧
  Forall (λ ev, is_stop ev = false) (trace (script no_secrets_file None)) ∧
  Forall (λ ev, is_client_construction ev = false)
         (trace (script no_secrets_file None)).
Proof.
  rewrite (script_no_secrets_file no_secrets_file None "No secrets found.")
    by reflexivity.
  cbn [ending trace].
  repeat split; apply Forall_not; reflexivity.
Qed.

(** X15.  With a secrets file that has no entry [GOOGLE_API_KEY] the run
    shows the configuration error right after the page header and halts
    there by [st.stop()]; no embeddings client, vector store or chat model
    is constructed in that run, and the cache is left as it was. *)
Theorem missing_entry_halts_before_clients (w : World) (c : Cache)
    (entries : gmap string string) :
  secrets w = SecretsFile entries →
  entries !! "GOOGLE_API_KEY" = None →
  ending (script w c) = Halted ∧
  trace (script w c) =
    trace (page_header w c)
    ++ [ ev_error "Google API key not found in Streamlit secrets. Please add 'GOOGLE_API_KEY' in the Space's secrets settings.";
         ev_stop ] ∧
  Forall (λ ev, is_client_construction ev = false) (trace (script w c)) ∧
  cache_after (script w c) = c.
Proof.
  intros Hstore Hkey. rewrite (script_no_key w c entries Hstore Hkey).
  cbn [ending trace cache_after].
  repeat split. apply Forall_not. reflexivity.
Qed.

Lemma missing_entry_halts_before_clients_witness :
  ending (script no_secret None) = Halted ∧
  trace (script no_secret None) =
    trace (page_header no_secret None)
    ++ [ ev_error "Google API key not found in Streamlit secrets. Please add 'GOOGLE_API_KEY' in the Space's secrets settings.";
         ev_stop ] ∧
  Forall (λ ev, is_client_construction ev = false)
         (trace (script no_secret None)) ∧
  cache_after (script no_secret None) = None.
Proof.
  apply (missing_entry_halts_before_clients no_secret None ∅).
  - reflexivity.
  - by_computation.
Defined.

(** C4.  Whenever a run calls the chain, the chain's retriever searches by
    maximal marginal relevance with the keyword arguments [k = 3] and
    [lambda_mult = 1] and no others; [1] is the upper end of the range of
    [lambda_mult], where the ranking goes by relevance alone.  This holds
    for every world, every cache and every query. *)
Theorem retriever_configuration (w : World) (c : Cache)
    (chain : RetrievalQA) (q : string) :
  (chain, q) ∈ qa_calls (trace (script w c)) →
  search_type (qa_retriever chain) = "mmr" ∧
  search_kwargs (qa_retriever chain)
    = {[ "k" := 3%Z; "lambda_mult" := 1%Z ]} ∧
  search_kwargs (qa_retriever chain) !! "k" = Some 3%Z ∧
  search_kwargs (qa_retriever chain) !! "lambda_mult" = Some 1%Z.
Proof.
  intros Hcall.
  destruct (script_cases w c) as [[key Hok]|Hnone].
  - rewrite (qa_calls_ready w c key Hok) in Hcall.
    destruct (bool_of_str (user_query w)).
    + apply list_elem_of_singleton in Hcall.
      injection Hcall as -> _. repeat split; by_computation.
    + by apply elem_of_nil in Hcall.
  - rewrite Hnone in Hcall. by apply elem_of_nil in Hcall.
Qed.

Lemma retriever_configuration_witness :
  search_type (qa_retriever (script_chain "secret" None)) = "mmr" ∧
  search_kwargs (qa_retriever (script_chain "secret" None))
    = {[ "k" := 3%Z; "lambda_mult" := 1%Z ]} ∧
  search_kwargs (qa_retriever (script_chain "secret" None)) !! "k"
    = Some 3%Z ∧
  search_kwargs (qa_retriever (script_chain "secret" None)) !! "lambda_mult"
    = Some 1%Z.
Proof.
  apply (retriever_configuration no_failure None
           (script_chain "secret" None) "What did ITC do?").
  vm_compute. apply list_elem_of_here.
Defined.

(** ** The query block *)

(** C5.  When the text input yields the empty string the chain is not
    called, whatever else happens in the run; and when the run reaches the
    text input, nothing is rendered between the input and the sidebar: no
    answer, no sources, no error. *)
Theorem empty_query_is_noop (w : World) (c : Cache) :
  user_query w = "" →
  qa_calls (trace (script w c)) = [] ∧
  ∀ key, clients_ok w c key →
    trace (script w c) =
      trace (page_header w c) ++ init_events key c
      ++ input_event :: trace (sidebar_and_footer w c).
Proof.
  intros Hq. split.
  - destruct (script_cases w c) as [[key Hok]|Hnone]; [|done].
    rewrite (qa_calls_ready w c key Hok), Hq. reflexivity.
  - intros key Hok. rewrite (script_ready w c key Hok). cbn [trace].
    unfold query_view. rewrite Hq. reflexivity.
Qed.

Lemma empty_query_is_noop_witness :
  qa_calls (trace (script (with_query "" no_failure) None)) = [] ∧
  trace (script (with_query "" no_failure) None) =
    trace (page_header (with_query "" no_failure) None)
    ++ init_events "secret" None
    ++ input_event
       :: trace (sidebar_and_footer (with_query "" no_failure) None).
Proof.
  destruct (empty_query_is_noop (with_query "" no_failure) None eq_refl)
    as [Hcalls Htrace].
  split; [exact Hcalls|].
  apply (Htrace "secret"). clients_ok_by_computation.
Defined.

(** C8.  In a run that has its clients and a non-empty query, the chain is
    called exactly once, and the string it receives is the string the text
    input returned, unchanged.  The statement holds for every non-empty
    string: nothing is checked, stripped, rewritten or cut. *)
Theorem query_passed_verbatim (w : World) (c : Cache) (key : string) :
  clients_ok w c key →
  user_query w ≠ "" →
  qa_calls (trace (script w c)) = [(script_chain key c, user_query w)].
Proof.
  intros Hok Hq. rewrite (qa_calls_ready w c key Hok).
  apply bool_of_str_true in Hq. by rewrite Hq.
Qed.

Lemma query_passed_verbatim_witness :
  qa_calls (trace (script (with_query "  <b>DROP TABLE;</b> 	 " no_failure) None))
    = [(script_chain "secret" None, "  <b>DROP TABLE;</b> 	 ")].
Proof.
  apply (query_passed_verbatim
           (with_query "  <b>DROP TABLE;</b> 	 " no_failure) None "secret").
  - clients_ok_by_computation.
  - discriminate.
Defined.

(** C9.  In a run that has its clients, the chain is left uncalled exactly
    when the query is the empty string.  A query made of white space only,
    such as one blank, is not empty: the chain is called with it, as it
    is. *)
Theorem whitespace_query_invokes_chain (w : World) (c : Cache) (key : string) :
  clients_ok w c key →
  (qa_calls (trace (script w c)) = [] ↔ user_query w = "") ∧
  (all_space (user_query w) = true → user_query w ≠ "" →
   qa_calls (trace (script w c)) = [(script_chain key c, user_query w)]).
Proof.
  intros Hok. rewrite (qa_calls_ready w c key Hok).
  destruct (user_query w) as [|a s] eqn:Hq; cbn [bool_of_str].
  - split; [done|]. intros _ Hne. by destruct Hne.
  - split; [|done]. split; intros H; discriminate.
Qed.

Lemma whitespace_query_invokes_chain_witness :
  (qa_calls (trace (script (with_query " " no_failure) None)) = []
   ↔ user_query (with_query " " no_failure) = "") ∧
  (all_space (user_query (with_query " " no_failure)) = true →
   user_query (with_query " " no_failure) ≠ "" →
   qa_calls (trace (script (with_query " " no_failure) None))
     = [(script_chain "secret" None, user_query (with_query " " no_failure))]).
Proof.
  apply (whitespace_query_invokes_chain (with_query " " no_failure) None "secret").
  clients_ok_by_computation.
Defined.

(** C7.  In a run that has its clients and a non-empty query, the spinner
    is entered before the chain is called and left after everything the
    query block displays.  When the chain returns, the display is, in this
    order: the heading and the text of the answer, the heading of the
    sources, and then one collapsible section per source document, in the
    order of the response.  Each section holds two lines.  The first is
    the document's metadata as Python writes a dictionary: in braces, the
    items in their order, each as the literal of the key (which reads back
    as the key), a colon and the text of the value.  The second is the
    preview: the prefix of the content of length 200, or the whole content
    when it is shorter, followed by three dots. *)
Theorem display_order (w : World) (c : Cache) (key : string) :
  clients_ok w c key →
  user_query w ≠ "" →
  ∃ view,
    trace (script w c) =
      trace (page_header w c) ++ init_events key c
      ++ input_event
         :: ev_spinner_enter "Generating response..."
         :: ev_qa_call (script_chain key c) (user_query w)
         :: view
      ++ ev_spinner_exit :: trace (sidebar_and_footer w c) ∧
    ∀ r, qa_call w (script_chain key c) (user_query w) = inr r →
      view =
        [ ev_subheader "Answer"; ev_write (result r); ev_subheader "Sources" ]
        ++ match source_documents r with
           | [] => [ev_write "No source documents found."]
           | docs =>
               concat ((λ doc,
                 [ ev_expander_enter "Source Document";
                   ev_write ("**Metadata**: " +:+ format_dict (metadata doc));
                   ev_write ("**Content Preview**: "
                             +:+ slice_to (page_content doc) 200 +:+ "...");
                   ev_expander_exit ]) <$> docs)
           end ∧
      ∀ doc, doc ∈ source_documents r →
        format_dict (metadata doc) =
          "{" +:+ String.concat ", "
                    ((λ kv, repr_str kv.1 +:+ ": " +:+ kv.2) <$> metadata doc)
          +:+ "}" ∧
        (∀ kv, kv ∈ metadata doc → unrepr (repr_str kv.1) = Some kv.1) ∧
        (∃ rest,
           page_content doc = slice_to (page_content doc) 200 +:+ rest) ∧
        String.length (slice_to (page_content doc) 200)
          = 200 `min` String.length (page_content doc).
Proof.
  intros Hok Hq. apply bool_of_str_true in Hq.
  exists (match qa_call w (script_chain key c) (user_query w) with
          | inr r => response_view r
          | inl e => failure_view e
          end).
  split.
  - rewrite (script_ready w c key Hok). cbn [trace].
    unfold query_view. rewrite Hq.
    do 2 f_equal. cbn [app]. do 3 f_equal.
    by rewrite <- app_assoc.
  - intros r Hr. rewrite Hr. split; [reflexivity|].
    intros doc _. split; [apply format_dict_text|].
    split; [intros kv _; apply unrepr_repr_str|].
    rewrite slice_to_nonneg by lia. change (Z.to_nat 200) with 200%nat.
    split; [apply substring_prefix|apply substring_length].
Qed.

Lemma display_order_witness :
  trace (script long_source None) =
    trace (page_header long_source None) ++ init_events "secret" None
    ++ [ input_event;
         ev_spinner_enter "Generating response...";
         ev_qa_call (script_chain "secret" None) "What did ITC do?";
         ev_subheader "Answer";
         ev_write "A";
         ev_subheader "Sources";
         ev_expander_enter "Source Document";
         ev_write ("**Metadata**: {'page': 7, "
                   +:+ String dquote "author's note"
                   +:+ String dquote ": 'none'}");
         ev_write "**Content Preview**: 01234567890123456789012345678901234567890123456789012345678901234567890123456789012345678901234567890123456789012345678901234567890123456789012345678901234567890123456789012345678901234567890123456789...";
         ev_expander_exit;
         ev_spinner_exit ]
    ++ trace (sidebar_and_footer long_source None).
Proof.
  destruct (display_order long_source None "secret") as (view & Htrace & Hview).
  - clients_ok_by_computation.
  - discriminate.
  - destruct (Hview {| result := "A"; source_documents := [long_document] |}
                eq_refl) as (Hv & _).
    rewrite Htrace, Hv. by_computation.
Defined.

(** C6.  When the chain answers a non-empty query with no source
    document, the run writes the message that no source documents were
    found, after the heading of the sources, and opens no collapsible
    section anywhere. *)
Theorem no_sources_message (w : World) (c : Cache) (key : string)
    (r : Response) :
  clients_ok w c key →
  user_query w ≠ "" →
  qa_call w (script_chain key c) (user_query w) = inr r →
  source_documents r = [] →
  trace (script w c) =
    trace (page_header w c) ++ init_events key c
    ++ [ input_event;
         ev_spinner_enter "Generating response...";
         ev_qa_call (script_chain key c) (user_query w);
         ev_subheader "Answer";
         ev_write (result r);
         ev_subheader "Sources";
         ev_write "No source documents found.";
         ev_spinner_exit ]
    ++ trace (sidebar_and_footer w c) ∧
  Forall (λ ev, is_expander ev = false) (trace (script w c)).
Proof.
  intros Hok Hq Hr Hdocs. apply bool_of_str_true in Hq.
  assert (Htrace : trace (script w c) =
    trace (page_header w c) ++ init_events key c
    ++ [ input_event;
         ev_spinner_enter "Generating response...";
         ev_qa_call (script_chain key c) (user_query w);
         ev_subheader "Answer";
         ev_write (result r);
         ev_subheader "Sources";
         ev_write "No source documents found.";
         ev_spinner_exit ]
    ++ trace (sidebar_and_footer w c)).
  { rewrite (script_ready w c key Hok). cbn [trace].
    unfold query_view. rewrite Hq, Hr. unfold response_view.
    rewrite Hdocs. reflexivity. }
  split; [exact Htrace|]. rewrite Htrace.
  apply Forall_not. rewrite !forallb_app.
  replace (forallb _ (init_events key c)) with true by (by destruct c).
  reflexivity.
Qed.

Lemma no_sources_message_witness :
  trace (script no_sources None) =
    trace (page_header no_sources None) ++ init_events "secret" None
    ++ [ input_event;
         ev_spinner_enter "Generating response...";
         ev_qa_call (script_chain "secret" None) (user_query no_sources);
         ev_subheader "Answer";
         ev_write (result {| result := "A"; source_documents := [] |});
         ev_subheader "Sources";
         ev_write "No source documents found.";
         ev_spinner_exit ]
    ++ trace (sidebar_and_footer no_sources None) ∧
  Forall (λ ev, is_expander ev = false) (trace (script no_sources None)).
Proof.
  apply (no_sources_message no_sources None "secret"
           {| result := "A"; source_documents := [] |}).
  - clients_ok_by_computation.
  - discriminate.
  - reflexivity.
  - reflexivity.
Defined.

(** C3.  When the chain raises on a non-empty query, the exception is
    caught in the query block: the run shows the error message with the
    text of the exception, calls [st.stop()] nowhere, and goes on to its
    last line.  The session goes on as well: in the next run of the
    session, with its clients and a new non-empty query, the chain is
    called with the new query. *)
Theorem chain_failure_is_recoverable (w : World) (c : Cache) (key : string)
    (e : exn) :
  clients_ok w c key →
  user_query w ≠ "" →
  qa_call w (script_chain key c) (user_query w) = inl e →
  ending (script w c) = Returned tt ∧
  ev_error ("An error occurred while processing the query: " +:+ str e)
    ∈ trace (script w c) ∧
  Forall (λ ev, is_stop ev = false) (trace (script w c)) ∧
  ∀ w' key',
    clients_ok w' (cache_after (script w c)) key' →
    user_query w' ≠ "" →
    ∃ r r',
      session [w; w'] c = [r; r'] ∧
      ending r = Returned tt ∧
      qa_calls (trace r')
        = [(script_chain key' (cache_after r), user_query w')].
Proof.
  intros Hok Hq He.
  pose proof (script_ready w c key Hok) as Hrun.
  assert (Hview : query_view w (script_chain key c) (user_query w) =
    [ ev_spinner_enter "Generating response...";
      ev_qa_call (script_chain key c) (user_query w);
      ev_error ("An error occurred while processing the query: " +:+ str e);
      ev_write "Please try again or check the Chroma database and API key.";
      ev_spinner_exit ]).
  { unfold query_view. apply bool_of_str_true in Hq. by rewrite Hq, He. }
  rewrite Hview in Hrun.
  split; [by rewrite Hrun|]. split; [|split].
  - rewrite Hrun. cbn [trace].
    rewrite !elem_of_app. right. right.
    do 3 apply list_elem_of_further. apply list_elem_of_here.
  - rewrite Hrun. cbn [trace]. apply Forall_not. rewrite !forallb_app.
    replace (forallb _ (init_events key c)) with true by (by destruct c).
    reflexivity.
  - intros w' key' Hok' Hq'.
    exists (script w c), (script w' (cache_after (script w c))).
    split; [reflexivity|]. split; [by rewrite Hrun|].
    rewrite (qa_calls_ready _ _ _ Hok').
    apply bool_of_str_true in Hq'. by rewrite Hq'.
Qed.

Lemma chain_failure_is_recoverable_witness :
  ending (script chain_down None) = Returned tt ∧
  ev_error "An error occurred while processing the query: quota exceeded"
    ∈ trace (script chain_down None) ∧
  ∃ r r',
    session [chain_down; with_query "And in 2023?" no_failure] None = [r; r'] ∧
    ending r = Returned tt ∧
    qa_calls (trace r')
      = [(script_chain "secret" (cache_after r), "And in 2023?")].
Proof.
  destruct (chain_failure_is_recoverable chain_down None "secret"
              (Exn OtherException "quota exceeded"))
    as (Hend & Herr & _ & Hnext).
  - clients_ok_by_computation.
  - discriminate.
  - reflexivity.
  - split; [exact Hend|]. split; [exact Herr|].
    apply (Hnext (with_query "And in 2023?" no_failure) "secret").
    + clients_ok_by_computation.
    + discriminate.
Defined.

(** C10.  For every source document the run displays, the preview written
    is a string [p] followed by three dots, where [p] is the longest
    prefix of the content of at most 200 characters.  The dots are
    written in every case: a content of 200 characters or fewer is shown
    whole, followed by the three dots. *)
Theorem content_preview (w : World) (c : Cache) (key : string)
    (r : Response) (doc : Document) :
  clients_ok w c key →
  user_query w ≠ "" →
  qa_call w (script_chain key c) (user_query w) = inr r →
  doc ∈ source_documents r →
  ∃ p rest,
    page_content doc = p +:+ rest ∧
    String.length p = 200 `min` String.length (page_content doc) ∧
    p = slice_to (page_content doc) 200 ∧
    ev_write ("**Content Preview**: " +:+ p +:+ "...") ∈ trace (script w c) ∧
    ((String.length (page_content doc) ≤ 200)%nat →
     ev_write ("**Content Preview**: " +:+ page_content doc +:+ "...")
       ∈ trace (script w c)).
Proof.
  intros Hok Hq Hr Hdoc. apply bool_of_str_true in Hq.
  assert (Hp : slice_to (page_content doc) 200
               = substring 0 200 (page_content doc)).
  { by rewrite slice_to_nonneg. }
  assert (Hshown :
    ev_write ("**Content Preview**: " +:+ slice_to (page_content doc) 200
              +:+ "...") ∈ trace (script w c)).
  { rewrite (script_ready w c key Hok). cbn [trace].
    unfold query_view. rewrite Hq, Hr. unfold response_view.
    rewrite !elem_of_app. right. right.
    apply list_elem_of_further. rewrite !elem_of_app. left. right. left. right.
    assert (Hsections :
      ev_write ("**Content Preview**: " +:+ slice_to (page_content doc) 200
                +:+ "...") ∈ concat (source_section <$> source_documents r)).
    { apply list_elem_of_In, in_concat. exists (source_section doc). split.
      - apply list_elem_of_In, list_elem_of_fmap. by exists doc.
      - apply list_elem_of_In. unfold source_section.
        do 2 apply list_elem_of_further. apply list_elem_of_here. }
    destruct (source_documents r); [by apply elem_of_nil in Hdoc|].
    exact Hsections. }
  destruct (substring_prefix (page_content doc) 200) as [rest Hrest].
  exists (slice_to (page_content doc) 200), rest.
  split; [by rewrite Hp|]. split; [by rewrite Hp, substring_length|].
  split; [done|]. split; [exact Hshown|].
  intros Hshort. rewrite Hp, substring_all in Hshown; done.
Qed.

Lemma content_preview_witness :
  ∃ p rest,
    "doc1 text" = p +:+ rest ∧
    String.length p = 200 `min` String.length "doc1 text" ∧
    p = slice_to "doc1 text" 200 ∧
    ev_write ("**Content Preview**: " +:+ p +:+ "...")
      ∈ trace (script no_failure None) ∧
    ((String.length "doc1 text" ≤ 200)%nat →
     ev_write ("**Content Preview**: " +:+ "doc1 text" +:+ "...")
       ∈ trace (script no_failure None)).
Proof.
  apply (content_preview no_failure None "secret"
           {| result := "A";
              source_documents :=
                [ {| metadata := [("page", "1")];
                     page_content := "doc1 text" |} ] |}
           {| metadata := [("page", "1")]; page_content := "doc1 text" |}).
  - clients_ok_by_computation.
  - discriminate.
  - reflexivity.
  - apply list_elem_of_here.
Defined.

(** * Further properties of the script *)

(** ** The five ways a run can go *)

Lemma script_paths w c :
  (∃ msg, secrets w = NoSecretsFile msg) ∨
  (∃ entries,
     secrets w = SecretsFile entries ∧ entries !! "GOOGLE_API_KEY" = None) ∨
  (∃ key e,
     secrets w !! "GOOGLE_API_KEY" = Some key ∧
     GoogleGenerativeAIEmbeddings_raises w "models/embedding-001" key = Some e) ∨
  (∃ key e,
     secrets w !! "GOOGLE_API_KEY" = Some key ∧
     GoogleGenerativeAIEmbeddings_raises w "models/embedding-001" key = None ∧
     c = None ∧
     Chroma_raises w "./chroma_db" (script_embeddings key) = Some e) ∨
  (∃ key e,
     secrets w !! "GOOGLE_API_KEY" = Some key ∧
     GoogleGenerativeAIEmbeddings_raises w "models/embedding-001" key = None ∧
     (c = None → Chroma_raises w "./chroma_db" (script_embeddings key) = None) ∧
     ChatGoogleGenerativeAI_raises w key "gemini-2.0-flash-exp" = Some e) ∨
  (∃ key, clients_ok w c key).
Proof.
  destruct (secrets w !! "GOOGLE_API_KEY") as [key|] eqn:Hkey.
  2:{ destruct (secrets w) as [msg|entries] eqn:Hstore.
      - left. by exists msg.
      - right. left. by exists entries. }
  right. right.
  destruct (GoogleGenerativeAIEmbeddings_raises w "models/embedding-001" key)
    as [e|] eqn:Hemb; [left; by exists key, e|].
  right.
  assert (Hrest :
    (c = None → Chroma_raises w "./chroma_db" (script_embeddings key) = None) →
    (∃ key0 e,
       Some key = Some key0 ∧
       GoogleGenerativeAIEmbeddings_raises w "models/embedding-001" key0 = None ∧
       (c = None →
        Chroma_raises w "./chroma_db" (script_embeddings key0) = None) ∧
       ChatGoogleGenerativeAI_raises w key0 "gemini-2.0-flash-exp" = Some e) ∨
    (∃ key0, clients_ok w c key0)).
  { intros Hchroma.
    destruct (ChatGoogleGenerativeAI_raises w key "gemini-2.0-flash-exp")
      as [e|] eqn:Hchat.
    - left. by exists key, e.
    - right. exists key. unfold clients_ok. by rewrite Hkey. }
  destruct c as [vs|]; [right; by apply Hrest|].
  destruct (Chroma_raises w "./chroma_db" (script_embeddings key))
    as [e|] eqn:Hchroma.
  - left. by exists key, e.
  - right. by apply Hrest.
Qed.

Lemma elem_of_forallb_false (f : event → bool) (t : list event) (ev : event) :
  ev ∈ t → f ev = true → forallb (λ x, negb (f x)) t = false.
Proof.
  intros Hin Hf. induction t as [|y t IH]; [by apply elem_of_nil in Hin|].
  cbn [forallb]. apply elem_of_cons in Hin as [->|Hin].
  - by rewrite Hf.
  - rewrite (IH Hin). by destruct (f y).
Qed.

Lemma forallb_init_events (f : event → bool) key c :
  f (ev_new_embeddings "models/embedding-001" key) = true →
  f (ev_new_chroma "./chroma_db" (script_embeddings key)) = true →
  f (ev_new_chat_model key "gemini-2.0-flash-exp") = true →
  forallb f (init_events key c) = true.
Proof. intros H1 H2 H3. destruct c; cbn; by rewrite ?H1, ?H2, ?H3. Qed.

Lemma forallb_sections (f : event → bool) docs :
  (∀ doc, forallb f (source_section doc) = true) →
  forallb f (concat (source_section <$> docs)) = true.
Proof.
  intros Hf. induction docs as [|doc docs IH]; [done|].
  change (forallb f (source_section doc
                     ++ concat (source_section <$> docs)) = true).
  by rewrite forallb_app, Hf, IH.
Qed.

(** A test that the events of the query block pass also holds of whatever
    the query block displays. *)
Lemma forallb_query_view (f : event → bool) w chain q :
  (∀ s, f (ev_spinner_enter s) = true) → f ev_spinner_exit = true →
  (∀ ch s, f (ev_qa_call ch s) = true) →
  (∀ s, f (ev_subheader s) = true) → (∀ s, f (ev_write s) = true) →
  (∀ s, f (ev_error s) = true) →
  (∀ s, f (ev_expander_enter s) = true) → f ev_expander_exit = true →
  forallb f (query_view w chain q) = true.
Proof.
  intros Hsp Hspx Hqa Hsub Hwr Herr Hex Hexx.
  assert (Hview : forallb f match qa_call w chain q with
                            | inl e => failure_view e
                            | inr r => response_view r
                            end = true).
  { destruct (qa_call w chain q) as [e|r].
    - unfold failure_view. cbn [forallb]. by rewrite Herr, Hwr.
    - unfold response_view. rewrite forallb_app. cbn [forallb].
      rewrite !Hsub, Hwr. cbn [andb].
      destruct (source_documents r) as [|doc docs].
      + cbn [forallb]. by rewrite Hwr.
      + apply (forallb_sections f (doc :: docs)).
        intros d. unfold source_section. cbn [forallb].
        by rewrite Hex, !Hwr, Hexx. }
  unfold query_view. destruct (bool_of_str q); [|done].
  rewrite !forallb_app, Hview. cbn [forallb app].
  by rewrite Hsp, Hqa, Hspx.
Qed.

(** ** The guarded constructors *)

(** X1.  When the embeddings constructor raises, the run shows the message
    "Failed to initialize embeddings" with the text of the exception, and
    halts by [st.stop()] right there: no vector store and no chat model is
    constructed, the text input is not rendered, and the cache is left as
    it was. *)
Theorem embeddings_failure_halts (w : World) (c : Cache) (key : string)
    (e : exn) :
  secrets w !! "GOOGLE_API_KEY" = Some key →
  GoogleGenerativeAIEmbeddings_raises w "models/embedding-001" key = Some e →
  ending (script w c) = Halted ∧
  trace (script w c) =
    trace (page_header w c)
    ++ [ ev_new_embeddings "models/embedding-001" key;
         ev_error ("Failed to initialize embeddings: " +:+ str e);
         ev_stop ] ∧
  cache_after (script w c) = c.
Proof.
  intros Hkey Hemb. by rewrite (script_embeddings_raise w c key e Hkey Hemb).
Qed.

Lemma embeddings_failure_halts_witness :
  ending (script embeddings_down None) = Halted ∧
  trace (script embeddings_down None) =
    trace (page_header embeddings_down None)
    ++ [ ev_new_embeddings "models/embedding-001" "secret";
         ev_error ("Failed to initialize embeddings: "
                   +:+ str (Exn OtherException "no network"));
         ev_stop ] ∧
  cache_after (script embeddings_down None) = None.
Proof.
  apply (embeddings_failure_halts embeddings_down None "secret"
           (Exn OtherException "no network")); by_computation.
Defined.

Lemma new_chroma_on_empty_cache w key :
  secrets w !! "GOOGLE_API_KEY" = Some key →
  GoogleGenerativeAIEmbeddings_raises w "models/embedding-001" key = None →
  ev_new_chroma "./chroma_db" (script_embeddings key)
    ∈ trace (script w None).
Proof.
  intros Hkey Hemb.
  destruct (Chroma_raises w "./chroma_db" (script_embeddings key))
    as [e|] eqn:Hchroma.
  - rewrite (script_chroma_raise w key e Hkey Hemb Hchroma). cbn [trace].
    apply elem_of_app. right.
    apply list_elem_of_further, list_elem_of_here.
  - assert (Hinit : ev_new_chroma "./chroma_db" (script_embeddings key)
                      ∈ init_events key None).
    { apply list_elem_of_further, list_elem_of_here. }
    destruct (ChatGoogleGenerativeAI_raises w key "gemini-2.0-flash-exp")
      as [e|] eqn:Hchat.
    + rewrite (script_chat_model_raise w None key e); try done.
      cbn [trace]. apply elem_of_app. by right.
    + rewrite (script_ready w None key); [|done].
      cbn [trace]. rewrite !elem_of_app. right. by left.
Qed.

(** X2.  When the vector-store constructor raises on an empty cache, the
    run shows the message "Failed to load Chroma vector store" with the
    text of the exception and the hint about the directory, halts, and
    stores nothing in the cache.  The failure is therefore not remembered:
    the next run that gets its embeddings calls the constructor again. *)
Theorem vector_store_failure_is_retried (w : World) (key : string)
    (e : exn) :
  secrets w !! "GOOGLE_API_KEY" = Some key →
  GoogleGenerativeAIEmbeddings_raises w "models/embedding-001" key = None →
  Chroma_raises w "./chroma_db" (script_embeddings key) = Some e →
  ending (script w None) = Halted ∧
  trace (script w None) =
    trace (page_header w None)
    ++ [ ev_new_embeddings "models/embedding-001" key;
         ev_new_chroma "./chroma_db" (script_embeddings key);
         ev_error ("Failed to load Chroma vector store: " +:+ str e);
         ev_write "Ensure the 'chroma_db' directory contains all necessary files (chroma.sqlite3, data_level0.bin, etc.).";
         ev_stop ] ∧
  cache_after (script w None) = None ∧
  ∀ w' key',
    secrets w' !! "GOOGLE_API_KEY" = Some key' →
    GoogleGenerativeAIEmbeddings_raises w' "models/embedding-001" key' = None →
    ∃ r r',
      session [w; w'] None = [r; r'] ∧
      ev_new_chroma "./chroma_db" (script_embeddings key') ∈ trace r'.
Proof.
  intros Hkey Hemb Hchroma.
  pose proof (script_chroma_raise w key e Hkey Hemb Hchroma) as Hrun.
  rewrite Hrun. cbn [ending trace cache_after]. repeat split.
  intros w' key' Hkey' Hemb'.
  exists (script w None), (script w' (cache_after (script w None))).
  split; [reflexivity|]. rewrite Hrun. cbn [cache_after].
  by apply new_chroma_on_empty_cache.
Qed.

Lemma vector_store_failure_is_retried_witness :
  ending (script chroma_down None) = Halted ∧
  cache_after (script chroma_down None) = None ∧
  ∃ r r',
    session [chroma_down; no_failure] None = [r; r'] ∧
    ev_new_chroma "./chroma_db" (script_embeddings "secret") ∈ trace r'.
Proof.
  destruct (vector_store_failure_is_retried chroma_down "secret"
              (Exn OtherException "no such table"))
    as (Hend & _ & Hcache & Hnext); try by_computation.
  split; [exact Hend|]. split; [exact Hcache|].
  apply (Hnext no_failure "secret"); by_computation.
Defined.

(** ** The cached vector store *)

Lemma cached_run w vs :
  cache_after (script w (Some vs)) = Some vs ∧
  Forall (λ ev, is_new_chroma ev = false) (trace (script w (Some vs))).
Proof.
  destruct (script_paths w (Some vs))
    as [(msg & Hstore)|[(entries & Hstore & Hkey)|[(key & e & Hkey & Hemb)|[(key & e & _ & _ & Hc & _)
       |[(key & e & Hkey & Hemb & Hchroma & Hchat)|(key & Hok)]]]]].
  - rewrite (script_no_secrets_file w _ msg Hstore). cbn [cache_after trace].
    split; [done|]. by apply Forall_not.
  - rewrite (script_no_key w _ entries Hstore Hkey). cbn [cache_after trace].
    split; [done|]. by apply Forall_not.
  - rewrite (script_embeddings_raise w _ key e Hkey Hemb).
    cbn [cache_after trace]. split; [done|]. by apply Forall_not.
  - discriminate.
  - rewrite (script_chat_model_raise w _ key e Hkey Hemb Hchroma Hchat).
    cbn [cache_after trace]. split; [done|]. by apply Forall_not.
  - rewrite (script_ready w _ key Hok). cbn [cache_after trace].
    split; [done|]. apply Forall_not.
    change (input_event :: ?t) with ([input_event] ++ t).
    rewrite !forallb_app, forallb_query_view by done. reflexivity.
Qed.

(** X3.  Once the cache holds a vector store, it holds that same store
    for the rest of the session, and no later run constructs a vector
    store again, whatever the secret store, the constructors, the chain
    and the user do in those runs. *)
Theorem vector_store_built_once (ws : list World) (vs : VectorStore) :
  Forall (λ r, cache_after r = Some vs ∧
               Forall (λ ev, is_new_chroma ev = false) (trace r))
         (session ws (Some vs)).
Proof.
  induction ws as [|w ws IH]; [constructor|].
  cbn [session]. destruct (cached_run w vs) as [Hcache Htrace].
  constructor; [done|]. rewrite Hcache. exact IH.
Qed.

(** X6.  The chat model is constructed only after the vector store is in
    place: a run whose trace holds a chat-model construction leaves a
    vector store in the cache, even when that construction raises and the
    run ends with the exception uncaught. *)
Theorem chat_model_after_vector_store (w : World) (c : Cache)
    (k model : string) :
  ev_new_chat_model k model ∈ trace (script w c) →
  ∃ vs, cache_after (script w c) = Some vs.
Proof.
  intros Hin.
  assert (Hno : ∀ t, ev_new_chat_model k model ∈ t →
                forallb (λ ev, negb match ev with
                                    | ev_new_chat_model _ _ => true
                                    | _ => false
                                    end) t = false).
  { intros t Ht. by apply (elem_of_forallb_false _ t _ Ht). }
  destruct (script_paths w c)
    as [(msg & Hstore)|[(entries & Hstore & Hkey)|[(key & e & Hkey & Hemb)|[(key & e & Hkey & Hemb & -> & Hchroma)
       |[(key & e & Hkey & Hemb & Hchroma & Hchat)|(key & Hok)]]]]].
  - rewrite (script_no_secrets_file w _ msg Hstore) in Hin.
    by apply Hno in Hin.
  - rewrite (script_no_key w _ entries Hstore Hkey) in Hin.
    by apply Hno in Hin.
  - rewrite (script_embeddings_raise w _ key e Hkey Hemb) in Hin.
    by apply Hno in Hin.
  - rewrite (script_chroma_raise w key e Hkey Hemb Hchroma) in Hin.
    by apply Hno in Hin.
  - rewrite (script_chat_model_raise w _ key e Hkey Hemb Hchroma Hchat).
    by eexists.
  - rewrite (script_ready w _ key Hok). by eexists.
Qed.

Lemma chat_model_after_vector_store_witness :
  ∃ vs, cache_after (script chat_model_down None) = Some vs.
Proof.
  apply (chat_model_after_vector_store chat_model_down None
           "secret" "gemini-2.0-flash-exp").
  vm_compute. do 5 apply list_elem_of_further. apply list_elem_of_here.
Defined.

(** X4.  The cache is not keyed on the embeddings.  When a first run
    builds the vector store under one API key and a later run of the
    session finds another key in the secret store, the chain of the later
    run talks to the chat model with the new key but searches the cached
    vector store, whose embedding function still carries the first key. *)
Theorem cached_vector_store_keeps_first_key (w1 w2 : World)
    (key1 key2 : string) :
  clients_ok w1 None key1 →
  clients_ok w2 (Some (script_vector_store key1 None)) key2 →
  user_query w2 ≠ "" →
  ∃ r1 r2 chain,
    session [w1; w2] None = [r1; r2] ∧
    qa_calls (trace r2) = [(chain, user_query w2)] ∧
    llm_api_key (qa_llm chain) = key2 ∧
    emb_google_api_key (embedding_function (vectorstore (qa_retriever chain)))
      = key1 ∧
    ev_new_embeddings "models/embedding-001" key2 ∈ trace r2.
Proof.
  intros Hok1 Hok2 Hq.
  pose proof (script_ready w1 None key1 Hok1) as Hrun1.
  assert (Hcache : cache_after (script w1 None)
                   = Some (script_vector_store key1 None)) by by rewrite Hrun1.
  exists (script w1 None), (script w2 (cache_after (script w1 None))),
         (script_chain key2 (Some (script_vector_store key1 None))).
  split; [reflexivity|]. rewrite Hcache.
  split; [|split; [reflexivity|split; [reflexivity|]]].
  - rewrite (qa_calls_ready w2 _ key2 Hok2).
    apply bool_of_str_true in Hq. by rewrite Hq.
  - rewrite (script_ready w2 _ key2 Hok2). cbn [trace].
    rewrite !elem_of_app. right. left. apply list_elem_of_here.
Qed.

Lemma cached_vector_store_keeps_first_key_witness :
  ∃ r1 r2 chain,
    session [no_failure; with_secret "rotated" no_failure] None = [r1; r2] ∧
    qa_calls (trace r2)
      = [(chain, user_query (with_secret "rotated" no_failure))] ∧
    llm_api_key (qa_llm chain) = "rotated" ∧
    emb_google_api_key (embedding_function (vectorstore (qa_retriever chain)))
      = "secret" ∧
    ev_new_embeddings "models/embedding-001" "rotated" ∈ trace r2.
Proof.
  apply (cached_vector_store_keeps_first_key
           no_failure (with_secret "rotated" no_failure) "secret" "rotated").
  - clients_ok_by_computation.
  - clients_ok_by_computation.
  - discriminate.
Defined.

(** ** How a run ends *)



(** X8.  The text input is rendered in exactly the runs that reach the
    last line of the script, and these are the runs that have their
    clients.  A run that halts or ends with an exception during
    initialisation renders neither the text input nor the sidebar. *)
Theorem input_rendered_iff_completed (w : World) (c : Cache) :
  (ending (script w c) = Returned tt ↔ input_event ∈ trace (script w c)) ∧
  (ending (script w c) = Returned tt ↔ ∃ key, clients_ok w c key) ∧
  (ending (script w c) ≠ Returned tt →
   Forall (λ ev, is_text_input ev = false) (trace (script w c)) ∧
   Forall (λ ev, is_sidebar ev = false) (trace (script w c))).
Proof.
  assert (Hno : ∀ t, input_event ∈ t →
                forallb (λ ev, negb (is_text_input ev)) t = false).
  { intros t Ht. by apply (elem_of_forallb_false _ t _ Ht). }
  assert (Hnot_ok : ∀ key,
            secrets w !! "GOOGLE_API_KEY" = Some key →
            ∀ key', clients_ok w c key' → key' = key).
  { intros key Hkey key' (Hkey' & _). congruence. }
  destruct (script_paths w c)
    as [(msg & Hstore)|[(entries & Hstore & Hkey)|[(key & e & Hkey & Hemb)|[(key & e & Hkey & Hemb & -> & Hchroma)
       |[(key & e & Hkey & Hemb & Hchroma & Hchat)|(key & Hok)]]]]].
  - rewrite (script_no_secrets_file w _ msg Hstore). cbn [ending trace].
    split; [|split].
    + split; [done|]. intros Hin. by apply Hno in Hin.
    + split; [done|]. intros (key & Hkey' & _).
      by rewrite Hstore in Hkey'.
    + intros _. split; by apply Forall_not.
  - rewrite (script_no_key w _ entries Hstore Hkey). cbn [ending trace].
    split; [|split].
    + split; [done|]. intros Hin. by apply Hno in Hin.
    + split; [done|]. intros (key & Hkey' & _).
      rewrite Hstore in Hkey'.
      change (entries !! "GOOGLE_API_KEY" = Some key) in Hkey'. congruence.
    + intros _. split; by apply Forall_not.
  - rewrite (script_embeddings_raise w _ key e Hkey Hemb). cbn [ending trace].
    split; [|split].
    + split; [done|]. intros Hin. by apply Hno in Hin.
    + split; [done|]. intros (key' & Hok).
      pose proof (Hnot_ok key Hkey key' Hok) as ->.
      destruct Hok as (_ & Hemb' & _). congruence.
    + intros _. split; by apply Forall_not.
  - rewrite (script_chroma_raise w key e Hkey Hemb Hchroma). cbn [ending trace].
    split; [|split].
    + split; [done|]. intros Hin. by apply Hno in Hin.
    + split; [done|]. intros (key' & Hok).
      pose proof (Hnot_ok key Hkey key' Hok) as ->.
      destruct Hok as (_ & _ & Hchroma' & _).
      rewrite Hchroma' in Hchroma; done.
    + intros _. split; by apply Forall_not.
  - rewrite (script_chat_model_raise w _ key e Hkey Hemb Hchroma Hchat).
    cbn [ending trace]. split; [|split].
    + split; [done|]. intros Hin. apply Hno in Hin.
      rewrite forallb_app, forallb_init_events in Hin; done.
    + split; [done|]. intros (key' & Hok).
      pose proof (Hnot_ok key Hkey key' Hok) as ->.
      destruct Hok as (_ & _ & _ & Hchat'). congruence.
    + intros _. split; apply Forall_not;
        by rewrite forallb_app, forallb_init_events.
  - rewrite (script_ready w _ key Hok). cbn [ending trace].
    split; [|split].
    + split; [|done]. intros _.
      rewrite !elem_of_app. right. right. apply list_elem_of_here.
    + split; [|done]. intros _. by exists key.
    + intros Hne. by destruct Hne.
Qed.

(** X7.  No run calls the chain more than once: a failing call is not
    repeated, and nothing but the query block calls the chain. *)
Theorem chain_called_at_most_once (w : World) (c : Cache) :
  (length (qa_calls (trace (script w c))) ≤ 1)%nat.
Proof.
  destruct (script_cases w c) as [[key Hok]|Hnone].
  - rewrite (qa_calls_ready w c key Hok).
    destruct (bool_of_str (user_query w)); cbn; lia.
  - rewrite Hnone. cbn. lia.
Qed.

(** ** What the clients are built from *)

Lemma no_construction_uses_stored_secret w t :
  forallb (λ ev, negb (is_client_construction ev)) t = true →
  Forall (uses_stored_secret w) t.
Proof.
  intros H. apply Forall_not in H. eapply Forall_impl; [exact H|].
  intros ev Hev. by destruct ev.
Qed.

Lemma init_events_use_stored_secret w key c :
  secrets w !! "GOOGLE_API_KEY" = Some key →
  Forall (uses_stored_secret w) (init_events key c).
Proof.
  intros Hkey. unfold init_events.
  destruct c; repeat constructor; done.
Qed.

(** X9.  In every run, every client is constructed from the secret as it
    stands in the secret store and from the names fixed in the script: the
    embeddings with the model "models/embedding-001", the vector store on
    the directory "./chroma_db" with those embeddings, the chat model with
    the model "gemini-2.0-flash-exp". *)
Theorem clients_use_stored_secret (w : World) (c : Cache) :
  Forall (uses_stored_secret w) (trace (script w c)).
Proof.
  destruct (script_paths w c)
    as [(msg & Hstore)|[(entries & Hstore & Hkey)|[(key & e & Hkey & Hemb)|[(key & e & Hkey & Hemb & -> & Hchroma)
       |[(key & e & Hkey & Hemb & Hchroma & Hchat)|(key & Hok)]]]]].
  - rewrite (script_no_secrets_file w _ msg Hstore). cbn [trace].
    by apply no_construction_uses_stored_secret.
  - rewrite (script_no_key w _ entries Hstore Hkey). cbn [trace].
    by apply no_construction_uses_stored_secret.
  - rewrite (script_embeddings_raise w _ key e Hkey Hemb). cbn [trace].
    apply Forall_app. split.
    + by apply no_construction_uses_stored_secret.
    + repeat constructor; done.
  - rewrite (script_chroma_raise w key e Hkey Hemb Hchroma). cbn [trace].
    apply Forall_app. split.
    + by apply no_construction_uses_stored_secret.
    + repeat constructor; done.
  - rewrite (script_chat_model_raise w _ key e Hkey Hemb Hchroma Hchat).
    cbn [trace]. apply Forall_app. split.
    + by apply no_construction_uses_stored_secret.
    + by apply init_events_use_stored_secret.
  - rewrite (script_ready w _ key Hok). cbn [trace].
    destruct Hok as (Hkey & _).
    apply Forall_app. split;
      [by apply no_construction_uses_stored_secret|].
    apply Forall_app. split; [by apply init_events_use_stored_secret|].
    apply no_construction_uses_stored_secret.
    change (input_event :: ?t) with ([input_event] ++ t).
    rewrite !forallb_app, forallb_query_view by done. reflexivity.
Qed.

(** ** What the query block displays *)

Lemma append_length (s1 s2 : string) :
  String.length (s1 +:+ s2) = (String.length s1 + String.length s2)%nat.
Proof.
  induction s1 as [|a s1 IH]; [done|].
  change (S (String.length (s1 +:+ s2))
          = S (String.length s1 + String.length s2)).
  by rewrite IH.
Qed.

(** X10.  The preview of a content, dots included, has the length of the
    content plus three when the content has at most 200 characters, and
    203 characters otherwise; it is never longer than 203 characters. *)
Theorem preview_length (content : string) :
  String.length (slice_to content 200 +:+ "...")
    = (200 `min` String.length content + 3)%nat ∧
  (String.length (slice_to content 200 +:+ "...") ≤ 203)%nat ∧
  ((200 ≤ String.length content)%nat →
   String.length (slice_to content 200 +:+ "...") = 203%nat).
Proof.
  assert (Hlen : String.length (slice_to content 200 +:+ "...")
                 = (200 `min` String.length content + 3)%nat).
  { rewrite append_length, slice_to_nonneg by lia.
    change (Z.to_nat 200) with 200%nat. rewrite substring_length.
    reflexivity. }
  rewrite Hlen. repeat split; lia.
Qed.

(** X12.  When the chain raises on a non-empty query, nothing of a result
    is displayed: the query block shows the error message and the hint to
    try again, inside the spinner, and the run holds no answer heading, no
    sources heading and no collapsible section. *)
Theorem chain_failure_shows_no_result (w : World) (c : Cache) (key : string)
    (e : exn) :
  clients_ok w c key →
  user_query w ≠ "" →
  qa_call w (script_chain key c) (user_query w) = inl e →
  trace (script w c) =
    trace (page_header w c) ++ init_events key c
    ++ [ input_event;
         ev_spinner_enter "Generating response...";
         ev_qa_call (script_chain key c) (user_query w);
         ev_error ("An error occurred while processing the query: "
                   +:+ str e);
         ev_write "Please try again or check the Chroma database and API key.";
         ev_spinner_exit ]
    ++ trace (sidebar_and_footer w c) ∧
  Forall (λ ev, is_subheader ev = false) (trace (script w c)) ∧
  Forall (λ ev, is_expander ev = false) (trace (script w c)).
Proof.
  intros Hok Hq He. apply bool_of_str_true in Hq.
  rewrite (script_ready w c key Hok). cbn [trace].
  unfold query_view. rewrite Hq, He.
  split; [reflexivity|].
  split; apply Forall_not; rewrite !forallb_app, forallb_init_events;
    reflexivity.
Qed.

Lemma chain_failure_shows_no_result_witness :
  trace (script chain_down None) =
    trace (page_header chain_down None) ++ init_events "secret" None
    ++ [ input_event;
         ev_spinner_enter "Generating response...";
         ev_qa_call (script_chain "secret" None) (user_query chain_down);
         ev_error ("An error occurred while processing the query: "
                   +:+ str (Exn OtherException "quota exceeded"));
         ev_write "Please try again or check the Chroma database and API key.";
         ev_spinner_exit ]
    ++ trace (sidebar_and_footer chain_down None) ∧
  Forall (λ ev, is_subheader ev = false) (trace (script chain_down None)) ∧
  Forall (λ ev, is_expander ev = false) (trace (script chain_down None)).
Proof.
  apply (chain_failure_shows_no_result chain_down None "secret"
           (Exn OtherException "quota exceeded")).
  - clients_ok_by_computation.
  - discriminate.
  - reflexivity.
Defined.

Lemma count_sections docs :
  length (List.filter is_expander_enter (concat (source_section <$> docs)))
    = length docs.
Proof.
  induction docs as [|doc docs IH]; [done|].
  cbn. by rewrite IH.
Qed.

Lemma filter_init_events (f : event → bool) key c :
  f (ev_new_embeddings "models/embedding-001" key) = false →
  f (ev_new_chroma "./chroma_db" (script_embeddings key)) = false →
  f (ev_new_chat_model key "gemini-2.0-flash-exp") = false →
  List.filter f (init_events key c) = [].
Proof. intros H1 H2 H3. destruct c; cbn; by rewrite ?H1, ?H2, ?H3. Qed.

(** X13.  When the chain returns, the run opens one collapsible section
    per source document of the response, no more and no fewer, however
    many documents the response holds. *)
Theorem one_section_per_document (w : World) (c : Cache) (key : string)
    (r : Response) :
  clients_ok w c key →
  user_query w ≠ "" →
  qa_call w (script_chain key c) (user_query w) = inr r →
  length (List.filter is_expander_enter (trace (script w c)))
    = length (source_documents r).
Proof.
  intros Hok Hq Hr. apply bool_of_str_true in Hq.
  rewrite (script_ready w c key Hok). cbn [trace].
  unfold query_view. rewrite Hq, Hr. unfold response_view.
  change (input_event :: ?t) with ([input_event] ++ t).
  rewrite !List.filter_app, !length_app, filter_init_events by done.
  cbn [List.filter is_expander_enter length].
  change (List.filter is_expander_enter (trace (page_header w c)))
    with (@nil event).
  change (List.filter is_expander_enter (trace (sidebar_and_footer w c)))
    with (@nil event).
  change (is_expander_enter input_event) with false.
  cbn [length Nat.add]. rewrite !Nat.add_0_r.
  destruct (source_documents r) as [|doc docs]; [done|].
  apply (count_sections (doc :: docs)).
Qed.

Lemma one_section_per_document_witness :
  length (List.filter is_expander_enter (trace (script no_failure None)))
    = length (source_documents
                {| result := "A";
                   source_documents :=
                     [ {| metadata := [("page", "1")];
                          page_content := "doc1 text" |} ] |}).
Proof.
  apply (one_section_per_document no_failure None "secret").
  - clients_ok_by_computation.
  - discriminate.
  - reflexivity.
Defined.

(** ** Display blocks *)

Lemma blocks_app opened t1 t2 :
  blocks opened (t1 ++ t2) =
    match blocks opened t1 with
    | Some o => blocks o t2
    | None => None
    end.
Proof.
  revert opened. induction t1 as [|ev t1 IH]; intros opened; [done|].
  destruct ev; cbn [blocks app]; try apply IH.
  - destruct (close blk_spinner opened); [apply IH|done].
  - destruct (close blk_expander opened); [apply IH|done].
  - destruct (close blk_sidebar opened); [apply IH|done].
Qed.

Lemma blocks_sections opened docs :
  blocks opened (concat (source_section <$> docs)) = Some opened.
Proof.
  induction docs as [|doc docs IH]; [done|].
  change (blocks opened (source_section doc
                         ++ concat (source_section <$> docs)) = Some opened).
  rewrite blocks_app. exact IH.
Qed.

Lemma blocks_query_view opened w chain q :
  blocks opened (query_view w chain q) = Some opened.
Proof.
  unfold query_view. destruct (bool_of_str q); [|done].
  cbn [app blocks]. rewrite blocks_app.
  destruct (qa_call w chain q) as [e|r]; [done|].
  unfold response_view. cbn [app blocks].
  destruct (source_documents r) as [|doc docs]; [done|].
  by rewrite (blocks_sections _ (doc :: docs)).
Qed.

Lemma blocks_init_events opened key c :
  blocks opened (init_events key c) = Some opened.
Proof. by destruct c. Qed.

(** X11.  In every run the display blocks are well nested and all closed
    at the end: each spinner, collapsible section and sidebar that the run
    enters is left again, innermost first, also in the runs that halt or
    end with an exception. *)
Theorem display_blocks_balanced (w : World) (c : Cache) :
  blocks [] (trace (script w c)) = Some [].
Proof.
  destruct (script_paths w c)
    as [(msg & Hstore)|[(entries & Hstore & Hkey)|[(key & e & Hkey & Hemb)|[(key & e & Hkey & Hemb & -> & Hchroma)
       |[(key & e & Hkey & Hemb & Hchroma & Hchat)|(key & Hok)]]]]].
  - by rewrite (script_no_secrets_file w _ msg Hstore).
  - by rewrite (script_no_key w _ entries Hstore Hkey).
  - by rewrite (script_embeddings_raise w _ key e Hkey Hemb).
  - by rewrite (script_chroma_raise w key e Hkey Hemb Hchroma).
  - rewrite (script_chat_model_raise w _ key e Hkey Hemb Hchroma Hchat).
    cbn [trace]. rewrite blocks_app. apply blocks_init_events.
  - rewrite (script_ready w _ key Hok). cbn [trace].
    rewrite blocks_app. change (blocks [] (trace (page_header w c)))
      with (Some (@nil block)). cbv iota beta.
    rewrite blocks_app, blocks_init_events.
    change (input_event :: ?t) with ([input_event] ++ t).
    rewrite blocks_app. change (blocks [] [input_event])
      with (Some (@nil block)). cbv iota beta.
    by rewrite blocks_app, blocks_query_view.
Qed.

(** ** Running the script again *)

Lemma filter_all (f : event → bool) (t : list event) :
  forallb f t = true → List.filter f t = t.
Proof.
  induction t as [|ev t IH]; [done|]. cbn [forallb List.filter].
  destruct (f ev); [|done]. intros H. by rewrite (IH H).
Qed.

(** X14.  When a run on an empty cache has its clients, running the script
    again in the same world displays the same things in the same order and
    calls the chain with the same chain object and query: the trace of the
    second run is the trace of the first without the construction of the
    vector store, and the cache is as the first run left it. *)
Theorem rerun_repeats_first_run (w : World) (key : string) :
  clients_ok w None key →
  trace (script w (cache_after (script w None)))
    = List.filter (λ ev, negb (is_new_chroma ev)) (trace (script w None)) ∧
  cache_after (script w (cache_after (script w None)))
    = cache_after (script w None).
Proof.
  intros Hok.
  assert (Hok' : clients_ok w (Some (script_vector_store key None)) key).
  { destruct Hok as (Hkey & Hemb & _ & Hchat). by repeat split. }
  rewrite (script_ready w None key Hok). cbn [trace cache_after].
  rewrite (script_ready w _ key Hok'). cbn [trace cache_after].
  split; [|reflexivity].
  change (script_chain key (Some (script_vector_store key None)))
    with (script_chain key None).
  change (input_event :: ?t) with ([input_event] ++ t).
  rewrite !List.filter_app.
  rewrite (filter_all _ (query_view w (script_chain key None) (user_query w)))
    by by apply forallb_query_view.
  reflexivity.
Qed.

Lemma rerun_repeats_first_run_witness :
  trace (script no_failure (cache_after (script no_failure None)))
    = List.filter (λ ev, negb (is_new_chroma ev))
                  (trace (script no_failure None)) ∧
  cache_after (script no_failure (cache_after (script no_failure None)))
    = cache_after (script no_failure None).
Proof.
  apply (rerun_repeats_first_run no_failure "secret").
  clients_ok_by_computation.
Defined.

(** The check of the display blocks is not vacuous: a block closed out of
    turn, or left open, is told apart. *)
Example blocks_rejects_crossing :
  blocks [] [ev_spinner_enter "a"; ev_expander_enter "b"; ev_spinner_exit;
             ev_expander_exit] = None ∧
  blocks [] [ev_spinner_enter "a"] = Some [blk_spinner].
Proof. split; reflexivity. Qed.
